(** * Rundeck client: the memoized response wrapper and the connection

    A shallow embedding of [rundeck/connection.py]: the [memoize] decorator,
    the class [RundeckResponse] built on it, and the class
    [RundeckConnection] with [make_url] and [execute_cmd].

    Python values that travel through the memoization caches are modelled by
    the dynamically typed [pyval]; exceptions by [exn]; code that raises or
    touches the caches lives in the monad [M]. Code outside this file (the
    XML parsers, [int], [requests.request], the constant of
    [rundeck/defaults.py]) enters through the classes [Runtime],
    [Transport] and [Defaults]; the module [Reference] instantiates them to
    run the model on examples. *)

From Stdlib Require Import ZArith String Ascii List Lia.
From Stdlib Require Import DecimalString HexadecimalString HexadecimalN.
From stdpp Require Import base option gmap strings list.

Local Open Scope Z_scope.
Set Warnings "-register-all".

(** ** Python strings *)

Module Py.

(** [str(z)] for an [int]: decimal digits, with a leading minus sign for
    negative numbers. *)
Definition str_int (z : Z) : string :=
  DecimalString.NilZero.string_of_int (Z.to_int z).

Definition in_chars (c : ascii) (chars : string) : bool :=
  existsb (Ascii.eqb c) (list_ascii_of_string chars).

(** [s.lstrip(chars)]: drops every leading character that occurs in
    [chars]. *)
Fixpoint lstrip (chars s : string) : string :=
  match s with
  | EmptyString => EmptyString
  | String c s' => if in_chars c chars then lstrip chars s' else s
  end.

(** [sep.join(parts)] *)
Fixpoint join (sep : string) (parts : list string) : string :=
  match parts with
  | [] => EmptyString
  | [p] => p
  | p :: ps => p +:+ sep +:+ join sep ps
  end.

(** The address part of the default [repr] of an object: [0x] followed by
    the lower-case hexadecimal digits of [id(obj)]. *)
Definition hex_addr (n : N) : string :=
  "0x" +:+ HexadecimalString.NilZero.string_of_uint (N.to_hex_uint n).

(** [s.find(sub)] on strings: lowest index of [sub], or [-1]. *)
Definition str_find (sub s : string) : Z :=
  match String.index 0 sub s with
  | Some n => Z.of_nat n
  | None => -1
  end.

End Py.

(** ** The element tree of [xml.etree.ElementTree] *)

Module ElementTree.

(** An element: tag, attribute dictionary, the text before the first
    child, the children, and the text that follows the end tag. *)
Inductive Element : Type :=
  mkElement (tag : string) (attrib : gmap string string)
            (text : option string) (children : list Element)
            (tail : option string).

Definition tag (e : Element) : string :=
  match e with mkElement t _ _ _ _ => t end.
Definition attrib (e : Element) : gmap string string :=
  match e with mkElement _ a _ _ _ => a end.
Definition text (e : Element) : option string :=
  match e with mkElement _ _ x _ _ => x end.
Definition children (e : Element) : list Element :=
  match e with mkElement _ _ _ cs _ => cs end.
Definition tail (e : Element) : option string :=
  match e with mkElement _ _ _ _ x => x end.

(** [elem.find(path)] for a path that is a plain tag name: the first
    direct child carrying that tag, or nothing. *)
Definition find (path : string) (e : Element) : option Element :=
  List.find (fun c => String.eqb (tag c) path) (children e).

End ElementTree.

Import ElementTree.

(** ** Reading XML text

    [ElementTree.fromstring] hands the text to the expat parser and builds
    the tree from its events. The reader below follows the productions of
    XML 1.0 for documents made of elements, attributes and character data
    in ASCII: [document], [element], [STag], [EmptyElemTag], [ETag],
    [Attribute], [AttValue], [content], [CharData], [Name] and [S].
    Everything else (declarations, comments, processing instructions, CDATA
    sections, references, namespaces, carriage returns, bytes above 127) is
    reported as [Unmodelled], never as [Malformed]. *)

Module XmlText.

Inductive outcome (A : Type) : Type :=
| Parsed (a : A) (rest : string)
| Malformed
| Unmodelled.
Arguments Parsed {A} a rest.
Arguments Malformed {A}.
Arguments Unmodelled {A}.

Definition andThen {A B} (o : outcome A) (k : A -> string -> outcome B)
  : outcome B :=
  match o with
  | Parsed a rest => k a rest
  | Malformed => Malformed
  | Unmodelled => Unmodelled
  end.

Definition code (c : ascii) : N := N_of_ascii c.

Definition between (lo hi : N) (c : ascii) : bool :=
  ((lo <=? code c) && (code c <=? hi))%N.

(** [S]: space, tab, line feed. *)
Definition is_space (c : ascii) : bool :=
  ((code c =? 32) || (code c =? 9) || (code c =? 10))%N.

(** [NameStartChar] and [NameChar], ASCII part, colon left out. *)
Definition is_name_start (c : ascii) : bool :=
  between 65 90 c || between 97 122 c || (code c =? 95)%N.
Definition is_name_char (c : ascii) : bool :=
  is_name_start c || between 48 57 c || (code c =? 45)%N || (code c =? 46)%N.

(** [Char], ASCII part. *)
Definition is_char (c : ascii) : bool :=
  between 32 127 c || is_space c.

Definition contains (sub s : string) : bool :=
  match String.index 0 sub s with Some _ => true | None => false end.

(** The documents the reader has an answer for. *)
Definition in_fragment (s : string) : bool :=
  forallb (fun c => (code c <? 128)%N && negb (code c =? 13)%N
                    && negb (code c =? 38)%N && negb (code c =? 58)%N)
          (list_ascii_of_string s)
  && negb (contains "<!" s) && negb (contains "<?" s)
  && negb (contains "xmlns" s).

Fixpoint skip_space (s : string) : string :=
  match s with
  | String c r => if is_space c then skip_space r else s
  | EmptyString => EmptyString
  end.

Definition starts_with_space (s : string) : bool :=
  match s with
  | String c _ => is_space c
  | EmptyString => false
  end.

Fixpoint take_name_chars (s : string) : string * string :=
  match s with
  | String c r =>
      if is_name_char c
      then let (n, rest) := take_name_chars r in (String c n, rest)
      else (EmptyString, s)
  | EmptyString => (EmptyString, EmptyString)
  end.

(** [Name] *)
Definition parse_name (s : string) : outcome string :=
  match s with
  | String c r =>
      if is_name_start c
      then let (n, rest) := take_name_chars r in Parsed (String c n) rest
      else Malformed
  | EmptyString => Malformed
  end.

(** [AttValue] after its opening quote [q]; white space inside the value
    is normalised to a space. *)
Fixpoint parse_att_value (q : ascii) (s : string) : outcome string :=
  match s with
  | EmptyString => Malformed
  | String c r =>
      if Ascii.eqb c q then Parsed EmptyString r
      else if Ascii.eqb c "<" then Malformed
      else if negb (is_char c) then Malformed
      else andThen (parse_att_value q r) (fun v rest =>
             Parsed (String (if is_space c then " "%char else c) v) rest)
  end.

(** [Eq AttValue] *)
Definition parse_eq_value (s : string) : outcome string :=
  match skip_space s with
  | String "=" r =>
      match skip_space r with
      | String q r' =>
          if (code q =? 34)%N || (code q =? 39)%N
          then parse_att_value q r'
          else Malformed
      | EmptyString => Malformed
      end
  | _ => Malformed
  end.

(** [(S Attribute)* S?] and the end of the tag; the boolean tells an
    empty-element tag. *)
Fixpoint parse_attributes (fuel : nat) (acc : gmap string string)
    (s : string) : outcome (gmap string string * bool) :=
  match fuel with
  | O => Unmodelled
  | S fuel' =>
      match skip_space s with
      | String ">" r => Parsed (acc, false) r
      | String "/" (String ">" r) => Parsed (acc, true) r
      | s1 =>
          if negb (starts_with_space s) then Malformed
          else
            andThen (parse_name s1) (fun name r1 =>
            andThen (parse_eq_value r1) (fun value r2 =>
              match acc !! name with
              | Some _ => Malformed
              | None => parse_attributes fuel' (<[name := value]> acc) r2
              end))
      end
  end.

(** [CharData] up to the next tag. *)
Fixpoint take_text (s : string) : outcome string :=
  match s with
  | EmptyString => Parsed EmptyString EmptyString
  | String c r =>
      if Ascii.eqb c "<" then Parsed EmptyString s
      else if negb (is_char c) then Malformed
      else andThen (take_text r) (fun t rest => Parsed (String c t) rest)
  end.

Definition parse_text (s : string) : outcome (option string) :=
  andThen (take_text s) (fun t rest =>
    if contains "]]>" t then Malformed
    else Parsed (if String.eqb t EmptyString then None else Some t) rest).

Definition set_tail (e : Element) (tl : option string) : Element :=
  mkElement (tag e) (attrib e) (text e) (children e) tl.

(** [element], and the part of [content] that starts at a tag. *)
Fixpoint parse_element (fuel : nat) (s : string) : outcome Element :=
  match fuel with
  | O => Unmodelled
  | S fuel' =>
      match s with
      | String "<" r =>
          andThen (parse_name r) (fun name r1 =>
          andThen (parse_attributes (S (String.length r1)) ∅ r1)
            (fun '(attrs, empty) r2 =>
              if (empty : bool)
              then Parsed (mkElement name attrs None [] None) r2
              else
                andThen (parse_text r2) (fun txt r3 =>
                andThen (parse_children fuel' r3) (fun kids r4 =>
                andThen (parse_name r4) (fun ename r5 =>
                  match skip_space r5 with
                  | String ">" r6 =>
                      if String.eqb ename name
                      then Parsed (mkElement name attrs txt kids None) r6
                      else Malformed
                  | _ => Malformed
                  end)))))
      | _ => Malformed
      end
  end
with parse_children (fuel : nat) (s : string) : outcome (list Element) :=
  match fuel with
  | O => Unmodelled
  | S fuel' =>
      match s with
      | String "<" (String "/" r) => Parsed [] r
      | String "<" _ =>
          andThen (parse_element fuel' s) (fun child r1 =>
          andThen (parse_text r1) (fun tl r2 =>
          andThen (parse_children fuel' r2) (fun rest r3 =>
            Parsed (set_tail child tl :: rest) r3)))
      | _ => Malformed
      end
  end.

(** [document]: white space, the root element, white space. *)
Definition parse_document (s : string) : outcome Element :=
  if negb (in_fragment s) then Unmodelled
  else
    andThen (parse_element (2 * String.length s + 2) (skip_space s))
      (fun root rest =>
         match skip_space rest with
         | EmptyString => Parsed root EmptyString
         | _ => Malformed
         end).

End XmlText.

(** ** Responses of the HTTP library, exceptions, values *)

(** What the wrapper reads of a [requests.Response]. *)
Record Response : Type := mkResponse {
  status_code : Z;
  resp_text : string
}.

Inductive exn : Type :=
| ParseError                         (* xml.etree.ElementTree.ParseError *)
| ExpatError                         (* xml.parsers.expat.ExpatError *)
| AttributeError
| KeyError
| ValueError
| HTTPError (response : Response)    (* requests.HTTPError *)
| InvalidAuthentication (msg : string)
| NotImplementedError (msg : string)
| OtherError (name : string).

Inductive result (A : Type) : Type :=
| Return (a : A)
| Raise (e : exn).
Arguments Return {A} a.
Arguments Raise {A} e.

Inductive pyval : Type :=
| VNone
| VBool (b : bool)
| VInt (z : Z)
| VStr (s : string)
| VElement (e : Element)
| VDict (items : list (string * pyval)).

(** The names under which the specification files the exceptions above. *)
Inductive spec_error : Type :=
| AuthenticationError
| UnsupportedFeatureError
| HttpError
| MalformedResponseError.

(** Truth value of a Python object in an [if]. *)
Definition truthy (v : pyval) : bool :=
  match v with
  | VNone => false
  | VBool b => b
  | VInt z => negb (z =? 0)
  | VStr s => negb (String.eqb s EmptyString)
  | VElement e => negb (Nat.eqb (List.length (children e)) 0)
  | VDict items => negb (Nat.eqb (List.length items) 0)
  end.

(** ** The memoization caches and the monad of the wrapper *)

(** The six functions of [RundeckResponse] decorated with [memoize]. Each
    decoration creates one dictionary, [obj.cache], for its function. *)
Inductive accessor : Type :=
| Etree | Pprint | AsDict | ApiVersion | Success | Message.

Global Instance accessor_eq_dec : EqDecision accessor.
Proof. solve_decision. Defined.

(** The state that the wrapper code reads and writes: the dictionary of
    each decorated function, and (instrumentation, not in the source) the
    number of times the body of each decorated function has been entered. *)
Record State : Type := mkState {
  cache_of : accessor -> gmap string pyval;
  calls_of : accessor -> nat
}.

Definition initial_state : State :=
  {| cache_of := fun _ => ∅; calls_of := fun _ => 0%nat |}.

Definition M (A : Type) : Type := State -> result A * State.

Definition ret {A} (a : A) : M A := fun st => (Return a, st).
Definition bind {A B} (m : M A) (k : A -> M B) : M B :=
  fun st => match m st with
            | (Return a, st') => k a st'
            | (Raise e, st') => (Raise e, st')
            end.
Definition lift {A} (r : result A) : M A := fun st => (r, st).

Notation "'do' x <- m ; k" := (bind m (fun x => k))
  (at level 10, x name, m at level 100, k at level 200).
Notation "'run' m ; k" := (bind m (fun _ => k))
  (at level 10, m at level 100, k at level 200).

Definition get_cache (f : accessor) : M (gmap string pyval) :=
  fun st => (Return (cache_of st f), st).

(** [cache[key] = v] on the dictionary of [f]. *)
Definition cache_setitem (f : accessor) (key : string) (v : pyval) : M unit :=
  fun st =>
    (Return tt,
     {| cache_of := fun g => if decide (g = f)
                             then <[key := v]> (cache_of st g)
                             else cache_of st g;
        calls_of := calls_of st |}).

(** [cache[key]] *)
Definition cache_getitem (f : accessor) (key : string) : M pyval :=
  fun st => match cache_of st f !! key with
            | Some v => (Return v, st)
            | None => (Raise KeyError, st)
            end.

(** Instrumentation: one more entry into the body of [f]. *)
Definition count_call (f : accessor) : M unit :=
  fun st =>
    (Return tt,
     {| cache_of := cache_of st;
        calls_of := fun g => if decide (g = f) then S (calls_of st g)
                             else calls_of st g |}).

(** ** Attribute access on dynamically typed values *)

(** [v.attrib] *)
Definition py_attrib (v : pyval) : result (gmap string string) :=
  match v with
  | VElement e => Return (attrib e)
  | _ => Raise AttributeError
  end.

(** [v.find(path)]: elements search their children, strings search for a
    substring, nothing else has a [find]. *)
Definition py_find (v : pyval) (path : string) : result pyval :=
  match v with
  | VElement e => Return (match find path e with
                          | Some c => VElement c
                          | None => VNone
                          end)
  | VStr s => Return (VInt (Py.str_find path s))
  | _ => Raise AttributeError
  end.

(** [v.text] *)
Definition py_text (v : pyval) : result pyval :=
  match v with
  | VElement e => Return (match text e with
                          | Some s => VStr s
                          | None => VNone
                          end)
  | _ => Raise AttributeError
  end.

(** ** class RundeckResponse *)

Module RundeckResponse.

(** An instance: its identity [id(self)] (the address that the default
    [repr] prints) and its two attributes. [Callable] is the type of the
    functions a caller may hand over as [as_dict_method]. *)
Record t {Callable : Type} : Type := mk {
  obj_id : N;
  _response : Response;
  _as_dict_method : option Callable
}.
Arguments t : clear implicits.

(** Library code outside the repository, as the wrapper uses it:
    [ElementTree.fromstring(text)], [xml_dom.parseString(text).toprettyxml()],
    [int(text)], and the call [f(self)] of a caller's function. *)
Class Runtime (Callable : Type) : Type := {
  ElementTree_fromstring : string -> result Element;
  xml_dom_toprettyxml : string -> result string;
  int_of_str : string -> result Z;
  call : Callable -> t Callable -> M pyval
}.

Section Wrapper.
Context {Callable : Type} `{!Runtime Callable}.

Abbreviation RundeckResponse := (t Callable).

(** [repr(self)]: the class defines no [__repr__]. *)
Definition repr (self : RundeckResponse) : string :=
  "<rundeck.connection.RundeckResponse object at "
    +:+ Py.hex_addr (obj_id self) +:+ ">".

(** [str(args)] for [args = (self,)] and [str(kwargs)] for
    [kwargs = {}]. *)
Definition str_args (self : RundeckResponse) : string :=
  "(" +:+ repr self +:+ ",)".
Definition str_kwargs : string := "{}".

(** [memoize(obj)], applied to the function whose dictionary is that
    of [f]. *)
Definition memoize (f : accessor) (obj : RundeckResponse -> M pyval)
  : RundeckResponse -> M pyval :=
  fun self =>
    let key := str_args self +:+ str_kwargs in
    do cache <- get_cache f ;
    run (if bool_decide (cache !! key = None)
         then (run count_call f ;
               do v <- obj self ;
               cache_setitem f key v)
         else ret tt) ;
    cache_getitem f key.

Definition __init__ (self_id : N) (response : Response)
    (as_dict_method : option Callable) : M RundeckResponse :=
  ret {| obj_id := self_id;
         _response := response;
         _as_dict_method := None |}.

Definition response (self : RundeckResponse) : Response :=
  _response self.

Definition body (self : RundeckResponse) : string :=
  resp_text (_response self).

Definition etree : RundeckResponse -> M pyval :=
  memoize Etree (fun self =>
    do root <- lift (ElementTree_fromstring (body self)) ;
    ret (VElement root)).

Definition pprint : RundeckResponse -> M pyval :=
  memoize Pprint (fun self =>
    do s <- lift (xml_dom_toprettyxml (body self)) ;
    ret (VStr s)).

Definition as_dict : RundeckResponse -> M pyval :=
  memoize AsDict (fun self =>
    match _as_dict_method self with
    | None => ret VNone
    | Some f => call f self
    end).

Definition api_version : RundeckResponse -> M pyval :=
  memoize ApiVersion (fun self =>
    do root <- etree self ;
    do attrs <- lift (py_attrib root) ;
    match attrs !! "apiversion" with
    | Some s => do z <- lift (int_of_str s) ; ret (VInt z)
    | None => ret (VInt (-1))
    end).

Definition success : RundeckResponse -> M pyval :=
  memoize Success (fun self =>
    do root <- etree self ;
    do attrs <- lift (py_attrib root) ;
    ret (VBool (bool_decide (is_Some (attrs !! "success"))))).

Definition message : RundeckResponse -> M pyval :=
  memoize Message (fun self =>
    do ok <- success self ;
    do message_el <-
      (if truthy ok
       then do root <- etree self ; lift (py_find root "success")
       else do root <- etree self ; lift (py_find root "error")) ;
    do el <- lift (py_find message_el "message") ;
    lift (py_text el)).

(** The decorated function behind each name. *)
Definition access (f : accessor) : RundeckResponse -> M pyval :=
  match f with
  | Etree => etree
  | Pprint => pprint
  | AsDict => as_dict
  | ApiVersion => api_version
  | Success => success
  | Message => message
  end.

End Wrapper.

End RundeckResponse.

(** ** The HTTP library *)

Module Requests.

(** The arguments of [requests.request] as [execute_cmd] passes them. *)
Record Request : Type := mkRequest {
  req_method : string;
  req_url : string;
  req_params : option (list (string * string));
  req_data : option string;
  req_cookies : option (list (string * string));
  req_headers : list (string * option string);
  req_kwargs : list (string * pyval)
}.

(** A [requests.Session], as far as the connection touches it. *)
Record Session : Type := mkSession {
  headers : gmap string string
}.

(** The transport: [requests.request(...)] and a fresh
    [requests.Session()]. *)
Class Transport : Type := {
  request : Request -> result Response;
  new_session : Session
}.

(** [response.raise_for_status()]: client and server error statuses
    raise [HTTPError], which carries the response. *)
Definition raise_for_status (r : Response) : result unit :=
  if (400 <=? status_code r) && (status_code r <? 600)
  then Raise (HTTPError r)
  else Return tt.

End Requests.

(** ** class RundeckConnection *)

Module RundeckConnection.
Import Requests.

(** The constant of [rundeck/defaults.py], which is not among the
    sources at hand. *)
Class Defaults : Type := { RUNDECK_API_VERSION : Z }.

(** The keywords [__init__] looks up in [**kwargs]. *)
Record Kwargs : Type := mkKwargs {
  kw_usr : option string;
  kw_pwd : option string;
  kw_api_version : option Z
}.

Record t : Type := mk {
  protocol : string;
  usr : option string;
  pwd : option string;
  server : string;
  api_token : option string;
  api_version : Z;
  http : Session;
  base_url : string
}.

Section Connection.
Context `{!Defaults} `{!Transport}.

Definition is_None {A} (o : option A) : bool :=
  match o with None => true | Some _ => false end.

Definition __init__ (server protocol : string) (port : Z)
    (api_token : option string) (kwargs : Kwargs) : result t :=
  let usr := kw_usr kwargs in
  let pwd := kw_pwd kwargs in
  let api_version :=
    match kw_api_version kwargs with
    | Some v => v
    | None => RUNDECK_API_VERSION
    end in
  let self_server :=
    if (String.eqb protocol "http" && negb (port =? 80))
       || (String.eqb protocol "https" && negb (port =? 443))
    then server +:+ ":" +:+ Py.str_int port
    else server in
  if is_None api_token && is_None usr && is_None pwd
  then Raise (InvalidAuthentication
                "Must supply either api_token or usr and pwd")
  else
    let session := new_session in
    let finish (http : Session) : result t :=
      Return {| protocol := protocol;
                usr := usr;
                pwd := pwd;
                server := self_server;
                api_token := api_token;
                api_version := api_version;
                http := http;
                base_url := protocol +:+ "://" +:+ self_server +:+ "/api" |} in
    match api_token with
    | Some token =>
        finish {| headers :=
                    <["X-Rundeck-Auth-Token" := token]> (headers session) |}
    | None =>
        if negb (is_None usr) && negb (is_None pwd)
        then Raise (NotImplementedError
               "Username/password authentication is not yet supported")
        else finish session
    end.

Definition make_url (self : t) (api_url : string) : string :=
  Py.join "/" [base_url self; Py.str_int (api_version self);
               Py.lstrip "/" api_url].

(** [wrapper_id] is the address at which the interpreter allocates the
    wrapper that the call returns. *)
Definition execute_cmd {Callable : Type} (self : t) (wrapper_id : N)
    (method url : string) (params : option (list (string * string)))
    (data : option string) (parse_response : bool)
    (kwargs : list (string * pyval)) : M (RundeckResponse.t Callable) :=
  let url := make_url self url in
  let headers := [("X-Rundeck-Auth-Token", api_token self)] in
  do response <- lift (request {| req_method := method;
                                  req_url := url;
                                  req_params := params;
                                  req_data := data;
                                  req_cookies := None;
                                  req_headers := headers;
                                  req_kwargs := kwargs |}) ;
  run lift (raise_for_status response) ;
  RundeckResponse.__init__ wrapper_id response None.

End Connection.

End RundeckConnection.

(** ** A runtime to run the model on examples

    The XML reader above stands for [ElementTree.fromstring]; [int] reads
    plain decimal numerals; the pretty-printer is a stand-in that accepts
    what the reader accepts and hands the text back unchanged; a caller's
    function is a pure function of the raw response. *)

Module Reference.
Import XmlText.

Definition Callable : Type := Response -> pyval.

(** Modelled from the spec: [ElementTree] is imported from
    [rundeck/transforms.py], which is not among the sources at hand; the
    specification has it parse the body as an XML document and fail when
    the body is not well-formed XML. The reader of [XmlText] decides
    well-formedness for the documents it covers. *)
Definition fromstring (s : string) : result Element :=
  match parse_document s with
  | Parsed root _ => Return root
  | Malformed => Raise ParseError
  | Unmodelled => Raise (OtherError "outside the modelled XML")
  end.

Definition toprettyxml (s : string) : result string :=
  match parse_document s with
  | Parsed _ _ => Return s
  | Malformed => Raise ExpatError
  | Unmodelled => Raise (OtherError "outside the modelled XML")
  end.

Fixpoint digits_value (acc : Z) (s : string) : option Z :=
  match s with
  | EmptyString => Some acc
  | String c r =>
      if between 48 57 c
      then digits_value (10 * acc + (Z.of_N (code c) - 48)) r
      else None
  end.

Definition numeral_value (s : string) : option Z :=
  match s with
  | EmptyString => None
  | _ => digits_value 0 s
  end.

Definition is_numeral_char (c : ascii) : bool :=
  between 48 57 c || (code c =? 43)%N || (code c =? 45)%N.

(** [int(s)] for text made of digits and signs; Python accepts more
    (surrounding white space, underscores, other digits). *)
Definition int_of_str (s : string) : result Z :=
  let value (sign : Z) (digits : string) : result Z :=
    match numeral_value digits with
    | Some z => Return (sign * z)
    | None => Raise ValueError
    end in
  if negb (forallb is_numeral_char (list_ascii_of_string s))
  then Raise (OtherError "outside the modelled numerals")
  else
    match s with
    | String "-" r => value (-1) r
    | String "+" r => value 1 r
    | _ => value 1 s
    end.

Global Instance runtime : RundeckResponse.Runtime Callable := {|
  RundeckResponse.ElementTree_fromstring := fromstring;
  RundeckResponse.xml_dom_toprettyxml := toprettyxml;
  RundeckResponse.int_of_str := int_of_str;
  RundeckResponse.call := fun f self => ret (f (RundeckResponse._response self))
|}.

Global Instance defaults : RundeckConnection.Defaults :=
  {| RundeckConnection.RUNDECK_API_VERSION := 11 |}.

(** A mock transport: it answers 403 to requests for a path ending in
    [forbidden] and 200 with a success document to all others. *)
Definition ok_body : string :=
  "<result success='true' apiversion='11'><success><message>ok</message></success></result>".

Definition mock_request (req : Requests.Request) : result Response :=
  if contains "/forbidden" (Requests.req_url req)
  then Return (mkResponse 403 "Forbidden")
  else Return (mkResponse 200 ok_body).

Global Instance transport : Requests.Transport := {|
  Requests.request := mock_request;
  Requests.new_session := Requests.mkSession ∅
|}.

(** A wrapper as the constructor builds it. *)
Definition wrapper (self_id : N) (status : Z) (text : string)
  : RundeckResponse.t Callable :=
  RundeckResponse.mk Callable self_id (mkResponse status text) None.

End Reference.

(** ** Example documents and arguments *)

Module Examples.
Import Reference.

(** The success document of the specification, with the attribute
    written as XML requires. *)
Definition success_root : Element :=
  mkElement "result" (<["success" := "true"]> (<["apiversion" := "11"]> ∅)) None
    [mkElement "success" ∅ None
       [mkElement "message" ∅ (Some "ok") [] None] None]
    None.

(** The success document as the specification prints it: the attribute
    has no value. *)
Definition valueless_body : string :=
  "<result success><success><message>ok</message></success></result>".

(** A success flag on the root, but only an [error] child under it. *)
Definition mismatched_body : string :=
  "<result success='true'><error><message>no</message></error></result>".

Definition mismatched_root : Element :=
  mkElement "result" (<["success" := "true"]> ∅) None
    [mkElement "error" ∅ None
       [mkElement "message" ∅ (Some "no") [] None] None]
    None.

Definition error_body : string :=
  "<result error='true'><error><message>bad job id</message></error></result>".

(** A caller's projection. *)
Definition status_view : Callable :=
  fun rsp => VDict [("status", VInt (status_code rsp))].

Definition kwargs_v14 : RundeckConnection.Kwargs :=
  RundeckConnection.mkKwargs None None (Some 14).

(** A wrapper on which a projection was installed after construction,
    as in [w._as_dict_method = status_view]. *)
Definition wrapper_with_view (self_id : N) (status : Z) (text : string)
  : RundeckResponse.t Callable :=
  RundeckResponse.mk Callable self_id (mkResponse status text)
    (Some status_view).

(** A transport that answers every request with 304 and an empty body. *)
Definition not_modified : Requests.Transport := {|
  Requests.request := fun _ => Return (mkResponse 304 EmptyString);
  Requests.new_session := Requests.mkSession ∅
|}.

End Examples.

Import RundeckResponse.

(** ** Vocabulary of the wrapper's properties *)

Section WrapperVocabulary.
Context {Callable : Type} `{!Runtime Callable}.
Implicit Types (self : t Callable) (st : State) (f g : accessor).

(** The dictionary key under which [memoize] files a call on [self]. *)
Definition key self : string := str_args self +:+ str_kwargs.

(** A wrapper that came out of the constructor. *)
Definition constructed self : Prop :=
  exists self_id rsp m st st',
    __init__ self_id rsp m st = (Return self, st').

(** The accessors whose decorated functions the body of [f] reads. *)
Definition reads f : list accessor :=
  match f with
  | Etree | Pprint | AsDict => []
  | ApiVersion | Success => [Etree]
  | Message => [Success; Etree]
  end.

Definition map_result {A B} (h : A -> B) (r : result A) : result B :=
  match r with
  | Return a => Return (h a)
  | Raise e => Raise e
  end.

Definition text_value (e : Element) : pyval :=
  match text e with
  | Some s => VStr s
  | None => VNone
  end.

Definition has_success (root : Element) : bool :=
  bool_decide (is_Some (attrib root !! "success")).

(** What the body of [f] works out for a constructed wrapper, as a
    function of the response alone. *)
Definition computed f self : result pyval :=
  match f with
  | Etree => map_result VElement (ElementTree_fromstring (body self))
  | Pprint => map_result VStr (xml_dom_toprettyxml (body self))
  | AsDict => Return VNone
  | ApiVersion =>
      match ElementTree_fromstring (body self) with
      | Return root =>
          match attrib root !! "apiversion" with
          | Some s => map_result VInt (int_of_str s)
          | None => Return (VInt (-1))
          end
      | Raise e => Raise e
      end
  | Success =>
      match ElementTree_fromstring (body self) with
      | Return root => Return (VBool (has_success root))
      | Raise e => Raise e
      end
  | Message =>
      match ElementTree_fromstring (body self) with
      | Return root =>
          match find (if has_success root then "success" else "error") root with
          | Some el =>
              match find "message" el with
              | Some msg => Return (text_value msg)
              | None => Raise AttributeError
              end
          | None => Raise AttributeError
          end
      | Raise e => Raise e
      end
  end.

(** The dictionaries hold nothing stale for [self]: whatever is filed
    under its key is what its own response gives. The dictionaries are
    shared by all instances and keyed by the printed address, so this
    is a condition on the state and not a consequence of the code. *)
Definition coherent st self : Prop :=
  forall f v, cache_of st f !! key self = Some v -> computed f self = Return v.

(** [m] changes the dictionaries and counters of the functions in [fs]
    only, writes under the key of [self] only, and overwrites nothing
    that was filed under that key. *)
Definition footprint {A} (fs : list accessor) self (m : M A) : Prop :=
  forall st r st', m st = (r, st') ->
    (forall g, g ∉ fs ->
       cache_of st' g = cache_of st g /\ calls_of st' g = calls_of st g)
    /\ (forall g k, k <> key self ->
         cache_of st' g !! k = cache_of st g !! k)
    /\ (forall g v, cache_of st g !! key self = Some v ->
         cache_of st' g !! key self = Some v).

(** From a coherent state [m] ends with the outcome [r], in a coherent
    state. *)
Definition yields {A} self (m : M A) (r : result A) : Prop :=
  forall st res st', coherent st self -> m st = (res, st') ->
    res = r /\ coherent st' self.

(** The states that accesses to the wrappers of [ws] lead to. *)
Inductive reachable (ws : list (t Callable)) : State -> Prop :=
| reach_initial : reachable ws initial_state
| reach_access st w f :
    reachable ws st -> w ∈ ws -> reachable ws (snd (access f w st)).

(** From a coherent state that satisfies [J], [m] ends with the outcome
    [r], in a coherent state that satisfies [J]. *)
Definition holds {A} (J : State -> Prop) self (m : M A) (r : result A) : Prop :=
  forall st res st', coherent st self -> J st -> m st = (res, st') ->
    res = r /\ coherent st' self /\ J st'.

(** The body of [f] has been entered once if a value is filed for [self],
    and not at all otherwise. *)
Definition entered_once f self st : Prop :=
  calls_of st f = match cache_of st f !! key self with
                  | Some _ => 1%nat
                  | None => 0%nat
                  end.

(** The classification of the exceptions by the specification's names. *)
Definition classify (e : exn) : option spec_error :=
  match e with
  | InvalidAuthentication _ => Some AuthenticationError
  | NotImplementedError _ => Some UnsupportedFeatureError
  | HTTPError _ => Some HttpError
  | ParseError | ExpatError | AttributeError => Some MalformedResponseError
  | _ => None
  end.

End WrapperVocabulary.

(** ** Vocabulary of the connection's properties *)

Definition starts_with (c : ascii) (s : string) : bool :=
  match s with
  | String d _ => Ascii.eqb d c
  | EmptyString => false
  end.

Fixpoint ends_with (c : ascii) (s : string) : bool :=
  match s with
  | EmptyString => false
  | String d EmptyString => Ascii.eqb d c
  | String _ r => ends_with c r
  end.

Fixpoint has_char (c : ascii) (s : string) : bool :=
  match s with
  | EmptyString => false
  | String d r => Ascii.eqb d c || has_char c r
  end.

(** A run of [n] slashes. *)
Fixpoint slashes (n : nat) : string :=
  match n with
  | O => EmptyString
  | S n' => String "/" (slashes n')
  end.

(** The path as the specification words it: one leading slash, if there
    is one, taken off. *)
Definition strip_single_leading_slash (s : string) : string :=
  match s with
  | String "/" r => r
  | _ => s
  end.

(** The port a protocol implies. *)
Definition default_port (protocol : string) : Z :=
  if String.eqb protocol "https" then 443 else 80.

(** ** Properties of [memoize] and of the wrapper *)

Section WrapperProperties.
Context {Callable : Type} `{!Runtime Callable}.
Implicit Types (self : t Callable) (st : State) (f g : accessor).

Lemma memoize_hit f obj self st v :
  cache_of st f !! key self = Some v ->
  memoize f obj self st = (Return v, st).
Proof.
  intros Hv. unfold memoize, bind, get_cache, cache_getitem, ret.
  fold (key self). rewrite Hv.
  rewrite bool_decide_eq_false_2 by discriminate. simpl.
  by rewrite Hv.
Qed.

Lemma memoize_miss f obj self st :
  cache_of st f !! key self = None ->
  memoize f obj self st =
    match obj self (snd (count_call f st)) with
    | (Return v, st') => (Return v, snd (cache_setitem f (key self) v st'))
    | (Raise e, st') => (Raise e, st')
    end.
Proof.
  intros Hv. unfold memoize, bind, get_cache, cache_getitem, ret.
  fold (key self). rewrite Hv.
  rewrite bool_decide_eq_true_2 by reflexivity. simpl.
  destruct (obj self _) as [[v|e] st1]; simpl; [|done].
  rewrite decide_True by done. by rewrite lookup_insert_eq.
Qed.

Lemma footprint_ret {A} fs self (a : A) : footprint fs self (ret a).
Proof. intros st r st' [= <- <-]. auto. Qed.

Lemma footprint_lift {A} fs self (x : result A) : footprint fs self (lift x).
Proof. intros st r st' [= <- <-]. auto. Qed.

Lemma footprint_bind {A B} fs self (m : M A) (k : A -> M B) :
  footprint fs self m -> (forall a, footprint fs self (k a)) ->
  footprint fs self (bind m k).
Proof.
  intros Hm Hk st r st'. unfold bind.
  destruct (m st) as [[a|e] st1] eqn:E1.
  - intros E2. destruct (Hm _ _ _ E1) as (F1 & F2 & F3).
    destruct (Hk a _ _ _ E2) as (G1 & G2 & G3).
    split; [|split].
    + intros g Hg. destruct (G1 g Hg) as [-> ->]. auto.
    + intros g k' Hk'. rewrite G2, F2; auto.
    + intros g v Hv. auto.
  - intros [= <- <-]. exact (Hm _ _ _ E1).
Qed.

Lemma footprint_weaken {A} fs fs' self (m : M A) :
  (forall g, g ∈ fs -> g ∈ fs') -> footprint fs self m -> footprint fs' self m.
Proof.
  intros Hsub Hm st r st' E. destruct (Hm _ _ _ E) as (F1 & F2 & F3).
  split; [|split]; auto.
Qed.

Lemma footprint_memoize f fs obj self :
  footprint fs self (obj self) ->
  footprint (f :: fs) self (memoize f obj self).
Proof.
  intros Hobj st r st' E.
  destruct (cache_of st f !! key self) as [v|] eqn:Hc.
  - rewrite (memoize_hit _ _ _ _ _ Hc) in E. injection E as <- <-. auto.
  - rewrite (memoize_miss _ _ _ _ Hc) in E.
    destruct (obj self _) as [r1 st1] eqn:E1.
    destruct (Hobj _ _ _ E1) as (F1 & F2 & F3). simpl in F1, F2, F3.
    assert (Hfr : forall g, g ∉ f :: fs -> g <> f /\ g ∉ fs).
    { intros g Hg. split; intros ?; apply Hg; subst; [left | by right]. }
    destruct r1 as [v|e]; injection E as <- <-; simpl.
    + split; [|split].
      * intros g Hg. destruct (Hfr g Hg) as [Hne Hnin].
        rewrite decide_False by done.
        destruct (F1 g Hnin) as [-> ->]. by rewrite decide_False by done.
      * intros g k' Hk'. case_decide; [rewrite lookup_insert_ne by done|]; auto.
      * intros g v' Hv'. case_decide; [|auto]. subst g. congruence.
    + split; [|split]; [|auto..].
      intros g Hg. destruct (Hfr g Hg) as [Hne Hnin].
      destruct (F1 g Hnin) as [-> ->]. by rewrite decide_False by done.
Qed.

Lemma constructed_no_method self :
  constructed self -> _as_dict_method self = None.
Proof.
  intros (i & r & m & st & st' & Hc). unfold __init__, ret in Hc.
  by injection Hc as <- _.
Qed.

(** *** Footprints of the six accessors *)

Ltac footprint_steps :=
  repeat lazymatch goal with
         | |- footprint _ _ (ret _) => apply footprint_ret
         | |- footprint _ _ (lift _) => apply footprint_lift
         | |- footprint _ _ (bind _ _) => apply footprint_bind; [|intros ?]
         end.

Lemma footprint_etree self : footprint [Etree] self (etree self).
Proof. apply footprint_memoize. footprint_steps. Qed.

Lemma footprint_pprint self : footprint [Pprint] self (pprint self).
Proof. apply footprint_memoize. footprint_steps. Qed.

Lemma footprint_as_dict self :
  constructed self -> footprint [AsDict] self (as_dict self).
Proof.
  intros Hc. apply footprint_memoize.
  rewrite (constructed_no_method _ Hc). apply footprint_ret.
Qed.

Lemma footprint_api_version self :
  footprint [ApiVersion; Etree] self (api_version self).
Proof.
  apply footprint_memoize. footprint_steps.
  - apply footprint_etree.
  - destruct (_ !! _); footprint_steps.
Qed.

Lemma footprint_success self :
  footprint [Success; Etree] self (success self).
Proof.
  apply footprint_memoize. footprint_steps. apply footprint_etree.
Qed.

Lemma footprint_message self :
  footprint [Message; Success; Etree] self (message self).
Proof.
  apply footprint_memoize. footprint_steps.
  - apply footprint_success.
  - destruct (truthy _); footprint_steps;
      (eapply footprint_weaken; [|apply footprint_etree]);
      intros g ->%list_elem_of_singleton; right; left.
Qed.

Lemma footprint_access f self :
  constructed self -> footprint (f :: reads f) self (access f self).
Proof.
  intros Hc. destruct f; simpl.
  - apply footprint_etree.
  - apply footprint_pprint.
  - by apply footprint_as_dict.
  - apply footprint_api_version.
  - apply footprint_success.
  - apply footprint_message.
Qed.

(** The body of [f] reads decorated functions other than [f]. *)
Lemma access_is_memoize f self :
  constructed self ->
  exists obj, access f self = memoize f obj self
              /\ footprint (reads f) self (obj self).
Proof.
  intros Hc. destruct f; simpl; eexists; (split; [reflexivity|]); simpl.
  - footprint_steps.
  - footprint_steps.
  - rewrite (constructed_no_method _ Hc). apply footprint_ret.
  - footprint_steps; [apply footprint_etree|].
    destruct (_ !! _); footprint_steps.
  - footprint_steps. apply footprint_etree.
  - footprint_steps; [apply footprint_success|].
    destruct (truthy _); footprint_steps;
      (eapply footprint_weaken; [|apply footprint_etree]);
      intros g ->%list_elem_of_singleton; right; left.
Qed.

Lemma reads_not_self f : f ∉ reads f.
Proof.
  destruct f; simpl; rewrite ?not_elem_of_cons;
    repeat split; try discriminate; apply not_elem_of_nil.
Qed.

(** One access: what it returns, files and counts. *)
Lemma access_once f self st r st' :
  constructed self -> access f self st = (r, st') ->
  match cache_of st f !! key self with
  | Some v => r = Return v /\ st' = st
  | None =>
      calls_of st' f = S (calls_of st f)
      /\ match r with
         | Return v => cache_of st' f !! key self = Some v
         | Raise _ => cache_of st' f !! key self = None
         end
  end.
Proof.
  intros Hc E. destruct (access_is_memoize f self Hc) as (obj & Eq & Hobj).
  rewrite Eq in E. destruct (cache_of st f !! key self) as [v|] eqn:Hk.
  - rewrite (memoize_hit _ _ _ _ _ Hk) in E. by injection E as <- <-.
  - rewrite (memoize_miss _ _ _ _ Hk) in E.
    destruct (obj self _) as [r1 st1] eqn:E1.
    destruct (Hobj _ _ _ E1) as (F1 & F2 & F3).
    destruct (F1 f (reads_not_self f)) as [Fc Fn]. simpl in Fc, Fn.
    rewrite decide_True in Fn by done.
    destruct r1 as [v|e]; injection E as <- <-; simpl.
    + rewrite decide_True by done. by rewrite lookup_insert_eq.
    + by rewrite Fc.
Qed.

(** *** Coherent states *)

Lemma coherent_initial self : coherent initial_state self.
Proof. intros f v. simpl. by rewrite lookup_empty. Qed.

Lemma yields_bind {A B} self (m : M A) (k : A -> M B) r1 r2 :
  yields self m r1 ->
  (forall a, r1 = Return a -> yields self (k a) r2) ->
  (forall e, r1 = Raise e -> r2 = Raise e) ->
  yields self (bind m k) r2.
Proof.
  intros Hm Hk He st res st' Hst. unfold bind.
  destruct (m st) as [x st1] eqn:E1.
  destruct (Hm _ _ _ Hst E1) as [-> Hst1].
  destruct r1 as [a|e].
  - intros E2. by eapply Hk.
  - intros [= <- <-]. split; [symmetry; by apply He | done].
Qed.

Lemma yields_lift {A} self (r : result A) : yields self (lift r) r.
Proof. intros st res st' Hst [= <- <-]. done. Qed.

Lemma yields_ret {A} self (a : A) : yields self (ret a) (Return a).
Proof. intros st res st' Hst [= <- <-]. done. Qed.

Lemma yields_memoize f obj self :
  yields self (obj self) (computed f self) ->
  yields self (memoize f obj self) (computed f self).
Proof.
  intros Hobj st res st' Hst E.
  destruct (cache_of st f !! key self) as [v|] eqn:Hk.
  - rewrite (memoize_hit _ _ _ _ _ Hk) in E. injection E as <- <-.
    split; [symmetry; by apply Hst | done].
  - rewrite (memoize_miss _ _ _ _ Hk) in E.
    destruct (obj self _) as [r1 st1] eqn:E1.
    assert (Hst0 : coherent (snd (count_call f st)) self) by exact Hst.
    destruct (Hobj _ _ _ Hst0 E1) as [Hr Hst1].
    destruct r1 as [v|e]; injection E as <- <-; [|done].
    split; [done|]. intros g v'. simpl. case_decide.
    + subst g. rewrite lookup_insert_eq. intros [= <-]. by symmetry.
    + apply Hst1.
Qed.

Lemma yields_etree self : yields self (etree self) (computed Etree self).
Proof.
  apply yields_memoize. simpl.
  eapply yields_bind; [apply yields_lift | |].
  - intros root ->. apply yields_ret.
  - by intros e ->.
Qed.

Lemma yields_pprint self : yields self (pprint self) (computed Pprint self).
Proof.
  apply yields_memoize. simpl.
  eapply yields_bind; [apply yields_lift | |].
  - intros s ->. apply yields_ret.
  - by intros e ->.
Qed.

Lemma yields_as_dict self :
  constructed self -> yields self (as_dict self) (computed AsDict self).
Proof.
  intros Hc. apply yields_memoize.
  rewrite (constructed_no_method _ Hc). apply yields_ret.
Qed.

Lemma yields_api_version self :
  yields self (api_version self) (computed ApiVersion self).
Proof.
  apply yields_memoize. simpl.
  eapply yields_bind; [apply yields_etree | |]; simpl.
  - intros v Hv. destruct (ElementTree_fromstring _) as [root|]; [|done].
    injection Hv as <-. simpl.
    eapply yields_bind; [apply yields_lift | |]; [|done].
    intros attrs [= <-]. destruct (attrib root !! "apiversion") as [s|].
    + eapply yields_bind; [apply yields_lift | |].
      * intros z ->. apply yields_ret.
      * by intros e ->.
    + apply yields_ret.
  - intros e He. by destruct (ElementTree_fromstring _); simplify_eq.
Qed.

Lemma yields_success self :
  yields self (success self) (computed Success self).
Proof.
  apply yields_memoize. simpl.
  eapply yields_bind; [apply yields_etree | |]; simpl.
  - intros v Hv. destruct (ElementTree_fromstring _) as [root|]; [|done].
    injection Hv as <-. simpl.
    eapply yields_bind; [apply yields_lift | |]; [|done].
    intros attrs [= <-]. apply yields_ret.
  - intros e He. by destruct (ElementTree_fromstring _); simplify_eq.
Qed.

Lemma yields_message self :
  yields self (message self) (computed Message self).
Proof.
  apply yields_memoize. simpl.
  eapply yields_bind; [apply yields_success | |]; simpl.
  - intros ok Hok.
    destruct (ElementTree_fromstring (body self)) as [root|] eqn:Hroot;
      [|done].
    injection Hok as <-. simpl.
    set (which := if has_success root then "success" else "error").
    eapply (yields_bind _ _ _ (py_find (VElement root) which)).
    + unfold which. destruct (has_success root);
        (eapply yields_bind; [apply yields_etree | |]; simpl;
         rewrite Hroot; simpl;
         [intros ? [= <-]; apply yields_lift | done]).
    + simpl. intros el [= <-]. destruct (find which root) as [c|]; simpl.
      * eapply yields_bind; [apply yields_lift | |]; simpl; [|done].
        intros msg [= <-]. destruct (find "message" c) as [m|]; simpl.
        -- apply yields_lift.
        -- apply yields_lift.
      * eapply yields_bind; [apply yields_lift | |]; simpl; done.
    + done.
  - intros e He. by destruct (ElementTree_fromstring _); simplify_eq.
Qed.

(** From a coherent state an access gives what the response determines
    and leaves a coherent state. *)
Lemma access_yields f self :
  constructed self -> yields self (access f self) (computed f self).
Proof.
  intros Hc. destruct f; simpl.
  - apply yields_etree.
  - apply yields_pprint.
  - by apply yields_as_dict.
  - apply yields_api_version.
  - apply yields_success.
  - apply yields_message.
Qed.

(** *** Keys of different instances *)

Lemma length_append (s1 s2 : string) :
  String.length (s1 +:+ s2) = (String.length s1 + String.length s2)%nat.
Proof. induction s1 as [|c s1 IH]; simpl; [done|]. by rewrite IH. Qed.

Lemma append_cancel_r (s1 s2 t : string) :
  s1 +:+ t = s2 +:+ t -> s1 = s2.
Proof.
  revert s2. induction s1 as [|c s1 IH]; intros [|d s2] E; simpl in E.
  - done.
  - apply (f_equal String.length) in E.
    rewrite !length_append in E. simpl in E.
    rewrite ?length_append in E. lia.
  - apply (f_equal String.length) in E.
    rewrite !length_append in E. simpl in E.
    rewrite ?length_append in E. lia.
  - injection E as -> E. f_equal. by apply IH.
Qed.

Lemma hex_addr_inj (n n' : N) : Py.hex_addr n = Py.hex_addr n' -> n = n'.
Proof.
  unfold Py.hex_addr. intros E%String.app_inj.
  assert (Hnn : forall m, N.to_hex_uint m <> Hexadecimal.Nil).
  { intros [|q]; [done|]. apply HexadecimalPos.Unsigned.to_uint_nonnil. }
  apply HexadecimalN.Unsigned.to_uint_inj.
  pose proof (HexadecimalString.NilZero.usu _ (Hnn n)) as U.
  pose proof (HexadecimalString.NilZero.usu _ (Hnn n')) as U'.
  rewrite E in U. congruence.
Qed.

(** Two wrappers get the same key exactly when they have the same
    address. *)
Lemma key_inj (self other : t Callable) : key self = key other -> obj_id self = obj_id other.
Proof.
  unfold key, str_args, repr, str_kwargs.
  intros E. apply hex_addr_inj.
  apply append_cancel_r in E. apply String.app_inj in E.
  apply append_cancel_r in E. apply String.app_inj in E.
  by apply append_cancel_r in E.
Qed.

(** *** Coherence is an invariant of wrappers with distinct addresses *)

Lemma coherent_other_access f (self other : t Callable) st r st' :
  constructed other -> obj_id other <> obj_id self ->
  access f other st = (r, st') ->
  coherent st self -> coherent st' self.
Proof.
  intros Hc Hid E Hst g v.
  destruct (footprint_access f other Hc _ _ _ E) as (_ & Hkeys & _).
  rewrite Hkeys; [apply Hst|].
  intros Heq. apply Hid. symmetry. by apply key_inj.
Qed.

Lemma reachable_coherent (ws : list (t Callable)) st :
  (forall w, w ∈ ws -> constructed w) ->
  (forall w1 w2, w1 ∈ ws -> w2 ∈ ws -> obj_id w1 = obj_id w2 -> w1 = w2) ->
  reachable ws st ->
  forall w, w ∈ ws -> coherent st w.
Proof.
  intros Hcs Hids Hreach. induction Hreach as [|st w0 f Hreach IH Hw0].
  - intros w _. apply coherent_initial.
  - intros w Hw. destruct (access f w0 st) as [r st'] eqn:E. simpl.
    destruct (decide (obj_id w0 = obj_id w)) as [Heq|Hne].
    + rewrite <- (Hids w0 w Hw0 Hw Heq).
      exact (proj2 (access_yields f w0 (Hcs w0 Hw0) _ _ _ (IH w0 Hw0) E)).
    + exact (coherent_other_access f w w0 st r st' (Hcs w0 Hw0) Hne E (IH w Hw)).
Qed.

End WrapperProperties.

(** ** The wrapper: what the code guarantees *)

Section WrapperGuarantees.
Context {Callable : Type} `{!Runtime Callable}.
Implicit Types (self : t Callable) (st : State) (f g : accessor).

(** C1, the behaviour of the code: whatever function, if any, is handed
    to the constructor as [as_dict_method], the constructor stores [None],
    so the first [as_dict] on the wrapper returns [None] and never calls
    the function. *)
Theorem as_dict_ignores_method self_id rsp (m : option Callable) st self st0 :
  __init__ self_id rsp m st = (Return self, st0) ->
  cache_of st0 AsDict !! key self = None ->
  _as_dict_method self = None
  /\ exists st', as_dict self st0 = (Return VNone, st').
Proof.
  intros Hinit Hfresh.
  assert (Hc : constructed self) by (repeat eexists; exact Hinit).
  pose proof (constructed_no_method _ Hc) as Hm.
  split; [exact Hm|]. unfold as_dict.
  rewrite (memoize_miss _ _ _ _ Hfresh), Hm. simpl. eauto.
Qed.

(** Missing structure, in a state that is coherent for the wrapper: when
    the body parses to a tree whose root has no [success] (respectively
    [error]) child matching the success flag, or whose such child has no
    [message] child, [message] raises: the dereference of the absent
    element fails with [AttributeError], which the specification files
    under MalformedResponseError. *)
Theorem message_missing_structure self st root :
  constructed self -> coherent st self ->
  ElementTree_fromstring (body self) = Return root ->
  (forall el,
     find (if has_success root then "success" else "error") root = Some el ->
     find "message" el = None) ->
  exists e st',
    message self st = (Raise e, st')
    /\ e = AttributeError
    /\ classify e = Some MalformedResponseError.
Proof.
  intros Hc Hst Hroot Hmissing.
  destruct (message self st) as [res st'] eqn:E.
  destruct (yields_message self _ _ _ Hst E) as [-> _].
  exists AttributeError, st'. simpl. rewrite Hroot.
  destruct (find (if has_success root then _ else _) root) as [el|] eqn:Hel;
    [|done].
  by rewrite (Hmissing el eq_refl).
Qed.

(** C7, amended: for a wrapper whose body parses to a tree with root
    [root], in a state that is coherent for the wrapper (nothing filed
    under its address by an earlier wrapper with another response),
    [success] returns true exactly when the root carries a [success]
    attribute, and [message] returns the text of the [message] child of
    the root's [success] child when that flag is true, of its [error]
    child otherwise; both leave the caches coherent, so the two can be
    read one after the other. *)
Theorem success_and_message self st root :
  constructed self -> coherent st self ->
  ElementTree_fromstring (body self) = Return root ->
  (exists b st1,
     success self st = (Return (VBool b), st1)
     /\ (b = true <-> is_Some (attrib root !! "success"))
     /\ coherent st1 self)
  /\ (forall el msg,
        find (if has_success root then "success" else "error") root = Some el ->
        find "message" el = Some msg ->
        exists st2,
          message self st = (Return (text_value msg), st2)
          /\ coherent st2 self).
Proof.
  intros Hc Hst Hroot. split.
  - destruct (success self st) as [res st1] eqn:E.
    destruct (yields_success self _ _ _ Hst E) as [-> Hst1].
    simpl. rewrite Hroot. exists (has_success root), st1.
    split; [done|]. split; [|done].
    unfold has_success. by rewrite bool_decide_eq_true.
  - intros el msg Hel Hmsg.
    destruct (message self st) as [res st2] eqn:E.
    destruct (yields_message self _ _ _ Hst E) as [-> Hst2].
    exists st2. simpl. by rewrite Hroot, Hel, Hmsg.
Qed.

(** Construction is lazy: constructing a wrapper always succeeds and
    leaves every cache and every call counter as it was, so nothing is
    parsed; when the parser rejects the body, each access to the document
    tree or to an accessor built on it ([api_version], [success],
    [message]) from a state that is coherent for the wrapper raises the
    parser's exception. *)
Theorem construction_is_lazy self_id rsp (m : option Callable) st :
  exists self,
    __init__ self_id rsp m st = (Return self, st)
    /\ response self = rsp
    /\ forall e st1 f,
         coherent st1 self ->
         ElementTree_fromstring (body self) = Raise e ->
         f ∈ [Etree; ApiVersion; Success; Message] ->
         exists st2, access f self st1 = (Raise e, st2).
Proof.
  eexists. split; [reflexivity|]. split; [reflexivity|].
  intros e st1 f Hst He Hf.
  set (self := {| obj_id := self_id; _response := rsp;
                  _as_dict_method := None |}) in *.
  assert (Hc : constructed self).
  { exists self_id, rsp, m, st, st. reflexivity. }
  destruct (access f self st1) as [res st2] eqn:E.
  destruct (access_yields f self Hc _ _ _ Hst E) as [-> _].
  exists st2. f_equal.
  rewrite !elem_of_cons, elem_of_nil in Hf.
  destruct Hf as [->|[->|[->|[->|[]]]]]; simpl; by rewrite He.
Qed.

End WrapperGuarantees.

Section MemoizationGuarantees.
Context {Callable : Type} `{!Runtime Callable}.
Implicit Types (self other : t Callable) (st : State) (f g : accessor).

(** C4, amended: an access that returns a value leaves that value filed
    under the wrapper's key, so a second access on the same wrapper
    returns the same value and changes nothing, neither a cache nor a
    call counter; if nothing was filed for the wrapper beforehand, the
    body ran exactly once over the two accesses. An access that raises
    files nothing, and the body runs again at the next access. Each
    decorated function has its own dictionary, keyed by the printed
    address of the wrapper: an access never changes what is filed for a
    wrapper with another address. *)
Theorem memoized_access f self st r st' :
  constructed self -> access f self st = (r, st') ->
  (forall v, r = Return v ->
     access f self st' = (Return v, st')
     /\ (cache_of st f !! key self = None ->
         calls_of st' f = S (calls_of st f)))
  /\ (forall e, r = Raise e ->
        cache_of st' f !! key self = None
        /\ calls_of st' f = S (calls_of st f)
        /\ forall r2 st2, access f self st' = (r2, st2) ->
             calls_of st2 f = S (S (calls_of st f)))
  /\ (forall other g, obj_id other <> obj_id self ->
        cache_of st' g !! key other = cache_of st g !! key other).
Proof.
  intros Hc E. pose proof (access_once f self st r st' Hc E) as Honce.
  split; [|split].
  - intros v ->. destruct (cache_of st f !! key self) as [v0|] eqn:Hk.
    + destruct Honce as [[= ->] ->]. split; [exact E | done].
    + destruct Honce as [Hn Hv]. split; [|done].
      destruct (access_is_memoize f self Hc) as (obj & -> & _).
      by apply memoize_hit.
  - intros e ->. destruct (cache_of st f !! key self) as [v0|] eqn:Hk.
    + by destruct Honce as [? _].
    + destruct Honce as [Hn Hnone]. split; [done|]. split; [done|].
      intros r2 st2 E2.
      pose proof (access_once f self st' r2 st2 Hc E2) as Honce2.
      rewrite Hnone in Honce2. destruct Honce2 as [-> _]. by rewrite Hn.
  - intros other g Hid.
    destruct (footprint_access f self Hc _ _ _ E) as (_ & Hkeys & _).
    apply Hkeys. intros Heq. apply Hid. by apply key_inj.
Qed.

(** C5, amended: an access to [f] changes no dictionary other than that
    of [f] and those of the decorated functions its body reads: the
    document tree for [api_version] and [success], [success] and the
    document tree for [message], none for the document tree, the pretty
    text and the structured view. *)
Theorem access_frame f self st r st' :
  constructed self -> access f self st = (r, st') ->
  forall g, g <> f -> g ∉ reads f -> cache_of st' g = cache_of st g.
Proof.
  intros Hc E g Hne Hnr.
  destruct (footprint_access f self Hc _ _ _ E) as (Hframe & _).
  apply Hframe. rewrite not_elem_of_cons. done.
Qed.

End MemoizationGuarantees.

(** ** The connection: what the code guarantees *)

Section ConnectionProperties.
Import Requests.

Lemma lstrip_slash_start (s : string) :
  starts_with "/" (Py.lstrip "/" s) = false.
Proof.
  induction s as [|c s IH]; simpl; [done|].
  unfold Py.in_chars. simpl. rewrite orb_false_r.
  destruct (Ascii.eqb c "/") eqn:Hc; [exact IH | exact Hc].
Qed.

Lemma lstrip_slash_run (s : string) :
  exists n, s = slashes n +:+ Py.lstrip "/" s.
Proof.
  induction s as [|c s [n IH]]; [by exists O|]. simpl.
  unfold Py.in_chars. simpl. rewrite orb_false_r.
  destruct (Ascii.eqb c "/") eqn:Hc.
  - apply Ascii.eqb_eq in Hc as ->. exists (S n).
    change (String "/" s = String "/" (slashes n +:+ Py.lstrip "/" s)).
    by f_equal.
  - by exists O.
Qed.

Lemma digits_no_slash (d : Decimal.uint) :
  has_char "/" (DecimalString.NilEmpty.string_of_uint d) = false.
Proof. induction d; simpl; auto. Qed.

Lemma str_int_no_slash (z : Z) : has_char "/" (Py.str_int z) = false.
Proof.
  unfold Py.str_int, DecimalString.NilZero.string_of_int.
  assert (Hu : forall d,
    has_char "/" (DecimalString.NilZero.string_of_uint d) = false).
  { intros d. unfold DecimalString.NilZero.string_of_uint.
    destruct d; simpl; try reflexivity; apply digits_no_slash. }
  destruct (Z.to_int z); simpl; apply Hu.
Qed.

Lemma str_int_nonempty (z : Z) : Py.str_int z <> EmptyString.
Proof.
  unfold Py.str_int, DecimalString.NilZero.string_of_int.
  assert (Hu : forall d,
    DecimalString.NilZero.string_of_uint d <> EmptyString).
  { intros d. unfold DecimalString.NilZero.string_of_uint.
    destruct d; simpl; discriminate. }
  destruct (Z.to_int z); simpl; [apply Hu | discriminate].
Qed.

Lemma ends_with_append (c : ascii) (s t : string) :
  t <> EmptyString -> ends_with c (s +:+ t) = ends_with c t.
Proof.
  intros Ht. induction s as [|d s IH]; [done|].
  change (String d s +:+ t) with (String d (s +:+ t)).
  simpl. rewrite IH. destruct (s +:+ t) eqn:E; [|done].
  destruct s; [by simpl in E | discriminate].
Qed.

Context `{!RundeckConnection.Defaults} `{!Transport}.

(** The attributes of a connection that the constructor returned. *)
Lemma init_fields server protocol port tok kw self :
  RundeckConnection.__init__ server protocol port tok kw = Return self ->
  RundeckConnection.server self =
    (if (String.eqb protocol "http" && negb (port =? 80))
        || (String.eqb protocol "https" && negb (port =? 443))
     then server +:+ ":" +:+ Py.str_int port
     else server)
  /\ RundeckConnection.base_url self =
       protocol +:+ "://" +:+ RundeckConnection.server self +:+ "/api"
  /\ RundeckConnection.api_token self = tok.
Proof.
  unfold RundeckConnection.__init__. cbv zeta. intros E.
  destruct tok as [token|]; simpl in E.
  - injection E as <-. simpl. auto.
  - destruct (RundeckConnection.kw_usr kw), (RundeckConnection.kw_pwd kw);
      simpl in E; try discriminate; injection E as <-; simpl; auto.
Qed.

(** C2, the behaviour of the code: without a token, a user name alone,
    or a password alone, is accepted; the constructor returns a
    connection that carries no token. *)
Theorem init_accepts_half_credentials server protocol port (name : string) v :
  (exists self,
     RundeckConnection.__init__ server protocol port None
       {| RundeckConnection.kw_usr := Some name;
          RundeckConnection.kw_pwd := None;
          RundeckConnection.kw_api_version := v |} = Return self
     /\ RundeckConnection.api_token self = None
     /\ RundeckConnection.pwd self = None)
  /\ (exists self,
       RundeckConnection.__init__ server protocol port None
         {| RundeckConnection.kw_usr := None;
            RundeckConnection.kw_pwd := Some name;
            RundeckConnection.kw_api_version := v |} = Return self
       /\ RundeckConnection.api_token self = None
       /\ RundeckConnection.usr self = None).
Proof. split; eexists; (split; [reflexivity|]); done. Qed.

(** C6, amended: [make_url] returns the base URL, the API version and
    the path with all its leading slashes taken off, joined by single
    slashes. Only leading slashes are removed from the path, so its
    internal slashes stay; the stripped path does not start with a slash
    and the base URL does not end with one, so neither join doubles a
    slash; the version is one non-empty segment without a slash. *)
Theorem make_url_joins server protocol port tok kw self api_url :
  RundeckConnection.__init__ server protocol port tok kw = Return self ->
  RundeckConnection.make_url self api_url =
    RundeckConnection.base_url self +:+ "/"
      +:+ Py.str_int (RundeckConnection.api_version self) +:+ "/"
      +:+ Py.lstrip "/" api_url
  /\ (exists n, api_url = slashes n +:+ Py.lstrip "/" api_url)
  /\ starts_with "/" (Py.lstrip "/" api_url) = false
  /\ ends_with "/" (RundeckConnection.base_url self) = false
  /\ has_char "/" (Py.str_int (RundeckConnection.api_version self)) = false
  /\ Py.str_int (RundeckConnection.api_version self) <> EmptyString.
Proof.
  intros Hinit. destruct (init_fields _ _ _ _ _ _ Hinit) as (_ & Hbase & _).
  split; [reflexivity|]. split; [apply lstrip_slash_run|].
  split; [apply lstrip_slash_start|]. split.
  - rewrite Hbase.
    rewrite (ends_with_append _ protocol) by (destruct protocol; discriminate).
    change ("://" +:+ ?x) with (String ":" (String "/" (String "/" x))).
    change (String ":" (String "/" (String "/" ?x)))
      with ("://" +:+ x).
    rewrite (ends_with_append _ "://") by
      (destruct (RundeckConnection.server self); discriminate).
    by rewrite ends_with_append.
  - split; [apply str_int_no_slash | apply str_int_nonempty].
Qed.

(** C10: for the protocols [http] and [https], the server of a
    connection is [host:port] exactly when the port differs from the
    port the protocol implies (80, respectively 443), and the bare host
    otherwise. *)
Theorem port_suppression host protocol port tok kw self :
  protocol = "http" \/ protocol = "https" ->
  RundeckConnection.__init__ host protocol port tok kw = Return self ->
  RundeckConnection.server self =
    (if port =? default_port protocol then host
     else host +:+ ":" +:+ Py.str_int port)
  /\ (RundeckConnection.server self = host +:+ ":" +:+ Py.str_int port
      <-> port <> default_port protocol).
Proof.
  intros Hproto Hinit.
  destruct (init_fields _ _ _ _ _ _ Hinit) as (Hserver & _).
  assert (Hif : RundeckConnection.server self =
                if port =? default_port protocol then host
                else host +:+ ":" +:+ Py.str_int port).
  { rewrite Hserver. unfold default_port.
    destruct Hproto as [-> | ->]; simpl;
      match goal with |- context [Z.eqb port ?d] => destruct (Z.eqb port d) end;
      reflexivity. }
  split; [exact Hif|]. rewrite Hif.
  destruct (Z.eqb_spec port (default_port protocol)) as [Heq|Hne].
  - split; [|done]. intros E. apply (f_equal String.length) in E.
    rewrite length_append in E. simpl in E. lia.
  - done.
Qed.

(** C8: when the HTTP exchange answers with a client or server error
    status, [execute_cmd] raises the [HTTPError] that carries the
    response, with its status and body, and returns no wrapper; when it
    answers with a success status, [execute_cmd] returns a wrapper of
    that response. Neither touches the caches. *)
Theorem execute_cmd_status {Callable : Type} (self : RundeckConnection.t)
    wrapper_id method url params data parse_response kwargs rsp st :
  request {| req_method := method;
             req_url := RundeckConnection.make_url self url;
             req_params := params;
             req_data := data;
             req_cookies := None;
             req_headers :=
               [("X-Rundeck-Auth-Token", RundeckConnection.api_token self)];
             req_kwargs := kwargs |} = Return rsp ->
  (400 <= status_code rsp < 600 ->
     RundeckConnection.execute_cmd (Callable := Callable) self wrapper_id
       method url params data parse_response kwargs st
     = (Raise (HTTPError rsp), st)
     /\ classify (HTTPError rsp) = Some HttpError)
  /\ (200 <= status_code rsp < 300 ->
      exists w,
        RundeckConnection.execute_cmd (Callable := Callable) self wrapper_id
          method url params data parse_response kwargs st
        = (Return w, st)
        /\ response w = rsp).
Proof.
  intros Hreq. unfold RundeckConnection.execute_cmd, bind, lift.
  rewrite Hreq. unfold raise_for_status. split.
  - intros [Hlo Hhi]. apply Z.leb_le in Hlo. apply Z.ltb_lt in Hhi.
    by rewrite Hlo, Hhi.
  - intros [Hlo Hhi].
    assert (Hno : (400 <=? status_code rsp) = false) by (apply Z.leb_gt; lia).
    rewrite Hno. simpl. eexists. split; reflexivity.
Qed.

End ConnectionProperties.

(** ** The model at work on examples *)

Section ExampleRuns.
Import Reference Examples.

Example parse_ok_body : fromstring ok_body = Return success_root.
Proof. vm_compute. reflexivity. Qed.

Example parse_valueless_body : fromstring valueless_body = Raise ParseError.
Proof. vm_compute. reflexivity. Qed.

Example run_success_then_message :
  let self := wrapper 1 200 ok_body in
  let '(ok, st1) := success self initial_state in
  let '(msg, st2) := message self st1 in
  ok = Return (VBool true) /\ msg = Return (VStr "ok")
  /\ calls_of st2 Etree = 1%nat.
Proof. vm_compute. auto. Qed.

Example run_error_message :
  let self := wrapper 1 200 error_body in
  fst (success self initial_state) = Return (VBool false)
  /\ fst (message self initial_state) = Return (VStr "bad job id").
Proof. vm_compute. auto. Qed.

(** The dictionaries outlive the wrappers: a wrapper allocated at the
    address of an earlier one finds the earlier one's entries. *)
Example stale_entry_is_shared :
  let first := wrapper 1 200 ok_body in
  let second := wrapper 1 200 error_body in
  let st1 := snd (success first initial_state) in
  fst (success second st1) = Return (VBool true)
  /\ fst (success second initial_state) = Return (VBool false).
Proof. vm_compute. auto. Qed.

End ExampleRuns.

(** ** The guarantees at concrete inputs *)

Section ConcreteInstances.
Import Reference Examples.

Lemma wrapper_constructed self_id status text :
  constructed (wrapper self_id status text).
Proof.
  exists self_id, (mkResponse status text), None, initial_state, initial_state.
  reflexivity.
Qed.

(** C1 at a concrete input: a wrapper constructed with [status_view]. *)
Lemma as_dict_ignores_method_witness :
  let self := wrapper 1 200 ok_body in
  __init__ 1 (mkResponse 200 ok_body) (Some status_view) initial_state
    = (Return self, initial_state)
  /\ cache_of initial_state AsDict !! key self = None
  /\ _as_dict_method self = None
  /\ exists st', as_dict self initial_state = (Return VNone, st').
Proof.
  intros self.
  assert (H1 : __init__ 1 (mkResponse 200 ok_body) (Some status_view)
                 initial_state = (Return self, initial_state))
    by reflexivity.
  assert (H2 : cache_of initial_state AsDict !! key self = None)
    by reflexivity.
  split; [exact H1|]. split; [exact H2|].
  exact (as_dict_ignores_method 1 (mkResponse 200 ok_body)
           (Some status_view) initial_state self initial_state H1 H2).
Defined.

(** C1, the divergence: the function handed over would have given a
    dictionary; [as_dict] gives [None]. *)
Example as_dict_divergence :
  let rsp := mkResponse 200 ok_body in
  let '(made, st0) := __init__ 1 rsp (Some status_view) initial_state in
  match made with
  | Return self =>
      fst (as_dict self st0) = Return VNone
      /\ fst (call status_view self st0) = Return (VDict [("status", VInt 200)])
  | Raise _ => False
  end.
Proof. vm_compute. auto. Qed.

(** Missing structure at a concrete input: the root says success, the
    child is [error]. *)
Lemma message_missing_structure_witness :
  let self := wrapper 1 200 mismatched_body in
  constructed self
  /\ coherent initial_state self
  /\ ElementTree_fromstring (body self) = Return mismatched_root
  /\ (forall el,
        find (if has_success mismatched_root then "success" else "error")
             mismatched_root = Some el ->
        find "message" el = None)
  /\ exists e st',
       message self initial_state = (Raise e, st')
       /\ e = AttributeError
       /\ classify e = Some MalformedResponseError.
Proof.
  intros self.
  assert (H1 : constructed self) by apply wrapper_constructed.
  assert (H2 : coherent initial_state self) by apply coherent_initial.
  assert (H3 : ElementTree_fromstring (body self) = Return mismatched_root)
    by (vm_compute; reflexivity).
  assert (H4 : forall el,
             find (if has_success mismatched_root then "success" else "error")
                  mismatched_root = Some el ->
             find "message" el = None)
    by (intros el; vm_compute; discriminate).
  repeat (split; [assumption|]).
  exact (message_missing_structure self initial_state mismatched_root
           H1 H2 H3 H4).
Defined.

(** C7: the document that the specification gives as its example is not
    XML, an attribute needs a value; the parser rejects it, and neither
    [success] nor [message] returns what the specification expects. *)
Lemma valueless_attribute_is_rejected :
  let self := wrapper 1 200 valueless_body in
  ElementTree_fromstring (body self) = Raise ParseError
  /\ fst (success self initial_state) <> Return (VBool true)
  /\ fst (message self initial_state) <> Return (VStr "ok").
Proof. vm_compute. repeat split; discriminate. Qed.

(** C7, amended, at a concrete input. *)
Lemma success_and_message_witness :
  let self := wrapper 1 200 ok_body in
  constructed self
  /\ coherent initial_state self
  /\ ElementTree_fromstring (body self) = Return success_root
  /\ (exists b st1,
        success self initial_state = (Return (VBool b), st1)
        /\ (b = true <-> is_Some (attrib success_root !! "success"))
        /\ coherent st1 self)
  /\ (forall el msg,
        find (if has_success success_root then "success" else "error")
             success_root = Some el ->
        find "message" el = Some msg ->
        exists st2,
          message self initial_state = (Return (text_value msg), st2)
          /\ coherent st2 self).
Proof.
  intros self.
  assert (H1 : constructed self) by apply wrapper_constructed.
  assert (H2 : coherent initial_state self) by apply coherent_initial.
  assert (H3 : ElementTree_fromstring (body self) = Return success_root)
    by (vm_compute; reflexivity).
  repeat (split; [assumption|]).
  exact (success_and_message self initial_state success_root H1 H2 H3).
Defined.

(** Lazy construction at a concrete input: a body that is not XML. *)
Lemma construction_is_lazy_witness :
  exists self,
    __init__ 1 (mkResponse 200 "not xml") None initial_state
      = (Return self, initial_state)
    /\ ElementTree_fromstring (body self) = Raise ParseError
    /\ forall f, f ∈ [Etree; ApiVersion; Success; Message] ->
         exists st2, access f self initial_state = (Raise ParseError, st2).
Proof.
  destruct (construction_is_lazy (Callable := Callable) 1
              (mkResponse 200 "not xml") None initial_state)
    as (self & Hinit & Hrsp & Hraise).
  exists self. split; [exact Hinit|].
  assert (Hself : self = wrapper 1 200 "not xml").
  { unfold __init__, ret in Hinit. by injection Hinit as <-. }
  assert (Hbody : ElementTree_fromstring (body self) = Raise ParseError).
  { rewrite Hself. vm_compute. reflexivity. }
  split; [exact Hbody|].
  intros f Hf. apply Hraise; [apply coherent_initial | exact Hbody | exact Hf].
Defined.

(** C4: on a body that is not XML the document tree is computed at
    each access, twice for two accesses, and nothing is cached. *)
Lemma failed_access_runs_twice :
  let self := wrapper 1 200 "not xml" in
  let '(first, st1) := etree self initial_state in
  let '(second, st2) := etree self st1 in
  first = Raise ParseError /\ second = Raise ParseError
  /\ cache_of st1 Etree !! key self = None
  /\ calls_of st2 Etree = 2%nat.
Proof. vm_compute. auto. Qed.

(** C4, amended, at a concrete input: [message] on the success
    document. *)
Lemma memoized_access_witness :
  let self := wrapper 1 200 ok_body in
  let '(r, st') := access Message self initial_state in
  constructed self
  /\ (forall v, r = Return v ->
        access Message self st' = (Return v, st')
        /\ (cache_of initial_state Message !! key self = None ->
            calls_of st' Message = S (calls_of initial_state Message)))
  /\ (forall e, r = Raise e ->
        cache_of st' Message !! key self = None
        /\ calls_of st' Message = S (calls_of initial_state Message)
        /\ forall r2 st2, access Message self st' = (r2, st2) ->
             calls_of st2 Message = S (S (calls_of initial_state Message)))
  /\ (forall (other : t Callable) g, obj_id other <> obj_id self ->
        cache_of st' g !! key other = cache_of initial_state g !! key other).
Proof.
  intros self.
  destruct (access Message self initial_state) as [r st'] eqn:E.
  assert (H1 : constructed self) by apply wrapper_constructed.
  split; [exact H1|].
  exact (memoized_access Message self initial_state r st' H1 E).
Defined.

(** C5: the first [message] on a fresh wrapper fills the dictionaries
    of [success] and of the document tree as well. *)
Lemma message_fills_other_caches :
  let self := wrapper 1 200 ok_body in
  let st' := snd (message self initial_state) in
  cache_of st' Success <> cache_of initial_state Success
  /\ cache_of st' Etree <> cache_of initial_state Etree.
Proof.
  intros self st'. split; intros E;
    apply (f_equal (fun c => c !! key self)) in E;
    vm_compute in E; discriminate.
Qed.

(** C5, amended, at a concrete input: [success] leaves the
    dictionary of [message] alone. *)
Lemma access_frame_witness :
  let self := wrapper 1 200 ok_body in
  let '(r, st') := access Success self initial_state in
  constructed self
  /\ (Message <> Success)
  /\ (Message ∉ reads Success)
  /\ cache_of st' Message = cache_of initial_state Message.
Proof.
  intros self.
  destruct (access Success self initial_state) as [r st'] eqn:E.
  assert (H1 : constructed self) by apply wrapper_constructed.
  assert (H2 : Message <> Success) by discriminate.
  assert (H3 : Message ∉ reads Success).
  { simpl. rewrite not_elem_of_cons. split; [discriminate|].
    apply not_elem_of_nil. }
  repeat (split; [assumption|]).
  exact (access_frame Success self initial_state r st' H1 E Message H2 H3).
Defined.

(** C6: a path with two leading slashes loses both, not one. *)
Lemma make_url_strips_every_leading_slash :
  exists self,
    RundeckConnection.__init__ "localhost" "http" 4440 (Some "token")
      kwargs_v14 = Return self
    /\ RundeckConnection.make_url self "//system/info"
       = "http://localhost:4440/api/14/system/info"
    /\ RundeckConnection.make_url self "//system/info"
       <> RundeckConnection.base_url self +:+ "/"
            +:+ Py.str_int (RundeckConnection.api_version self) +:+ "/"
            +:+ strip_single_leading_slash "//system/info".
Proof.
  eexists. split; [reflexivity|]. split; [vm_compute; reflexivity|].
  vm_compute. discriminate.
Qed.

(** C6, amended, at a concrete input. *)
Lemma make_url_joins_witness :
  exists self,
    RundeckConnection.__init__ "localhost" "http" 4440 (Some "token")
      kwargs_v14 = Return self
    /\ RundeckConnection.make_url self "/system/info"
       = "http://localhost:4440/api/14/system/info"
    /\ starts_with "/" (Py.lstrip "/" "/system/info") = false
    /\ ends_with "/" (RundeckConnection.base_url self) = false.
Proof.
  destruct (RundeckConnection.__init__ "localhost" "http" 4440
              (Some "token") kwargs_v14) as [self|e] eqn:E;
    [|vm_compute in E; discriminate].
  exists self. split; [reflexivity|].
  destruct (make_url_joins "localhost" "http" 4440 (Some "token")
              kwargs_v14 self "/system/info" E)
    as (Hurl & _ & Hstart & Hend & _).
  split; [|split; assumption].
  rewrite Hurl. vm_compute in E. injection E as <-. vm_compute. reflexivity.
Defined.

(** C10 at the four inputs of the specification. *)
Lemma port_suppression_witness :
  (exists self,
     RundeckConnection.__init__ "host" "http" 80 (Some "token") kwargs_v14
       = Return self /\ RundeckConnection.server self = "host")
  /\ (exists self,
       RundeckConnection.__init__ "host" "http" 8080 (Some "token") kwargs_v14
         = Return self /\ RundeckConnection.server self = "host:8080")
  /\ (exists self,
       RundeckConnection.__init__ "host" "https" 443 (Some "token") kwargs_v14
         = Return self /\ RundeckConnection.server self = "host")
  /\ (exists self,
       RundeckConnection.__init__ "host" "https" 8443 (Some "token") kwargs_v14
         = Return self /\ RundeckConnection.server self = "host:8443").
Proof.
  repeat split; (eexists; split; [reflexivity|]).
  - exact (proj1 (port_suppression "host" "http" 80 (Some "token")
                    kwargs_v14 _ (or_introl eq_refl) eq_refl)).
  - exact (proj1 (port_suppression "host" "http" 8080 (Some "token")
                    kwargs_v14 _ (or_introl eq_refl) eq_refl)).
  - exact (proj1 (port_suppression "host" "https" 443 (Some "token")
                    kwargs_v14 _ (or_intror eq_refl) eq_refl)).
  - exact (proj1 (port_suppression "host" "https" 8443 (Some "token")
                    kwargs_v14 _ (or_intror eq_refl) eq_refl)).
Defined.

(** C8 against the mock transport: 403 for [/forbidden], 200 for
    [/system/info]. *)
Lemma execute_cmd_status_witness :
  exists self,
    RundeckConnection.__init__ "localhost" "http" 4440 (Some "token")
      kwargs_v14 = Return self
    /\ RundeckConnection.execute_cmd (Callable := Callable) self 1
         "GET" "/forbidden" None None true [] initial_state
       = (Raise (HTTPError (mkResponse 403 "Forbidden")), initial_state)
    /\ exists w,
         RundeckConnection.execute_cmd (Callable := Callable) self 1
           "GET" "/system/info" None None true [] initial_state
         = (Return w, initial_state)
         /\ response w = mkResponse 200 ok_body.
Proof.
  eexists. split; [reflexivity|]. split.
  - refine (proj1 (proj1 (execute_cmd_status (Callable := Callable) _ 1
              "GET" "/forbidden" None None true []
              (mkResponse 403 "Forbidden") initial_state _) _)).
    + vm_compute. reflexivity.
    + simpl. lia.
  - refine (proj2 (execute_cmd_status (Callable := Callable) _ 1
              "GET" "/system/info" None None true []
              (mkResponse 200 ok_body) initial_state _) _).
    + vm_compute. reflexivity.
    + simpl. lia.
Defined.

End ConcreteInstances.

(** ** Further properties of [memoize] and of the wrapper *)

Section WrapperFurther.
Context {Callable : Type} `{!Runtime Callable}.
Implicit Types (self other : t Callable) (st : State) (f g : accessor).

Lemma key_of_address self other :
  obj_id self = obj_id other -> key self = key other.
Proof. unfold key, str_args, repr. by intros ->. Qed.

(** X1: the key under which [memoize] files a call depends on the address
    of the wrapper and on nothing else: two wrappers get the same key
    exactly when they have the same address, whatever their responses. *)
Theorem key_iff_address self other :
  key self = key other <-> obj_id self = obj_id other.
Proof. split; [apply key_inj | apply key_of_address]. Qed.

Lemma memoize_return_cached f obj self st v st' :
  memoize f obj self st = (Return v, st') ->
  cache_of st' f !! key self = Some v.
Proof.
  intros E. destruct (cache_of st f !! key self) as [v0|] eqn:Hk.
  - rewrite (memoize_hit _ _ _ _ _ Hk) in E. by injection E as <- <-.
  - rewrite (memoize_miss _ _ _ _ Hk) in E.
    destruct (obj self _) as [[v1|e] st1]; [|discriminate].
    injection E as <- <-. simpl.
    rewrite decide_True by done. by rewrite lookup_insert_eq.
Qed.

Lemma access_memoize f :
  exists obj, forall self, access f self = memoize f obj self.
Proof. destruct f; eexists; intros self; reflexivity. Qed.

(** X2: the dictionaries are shared by all wrappers. Once an access to
    [f] on one wrapper has returned a value, the same access on any
    wrapper with the same address returns that value and changes nothing,
    whatever the response of that wrapper is. *)
Theorem same_address_shares_cache f (first second : t Callable) st v st' :
  obj_id first = obj_id second ->
  access f first st = (Return v, st') ->
  access f second st' = (Return v, st').
Proof.
  intros Hid E. destruct (access_memoize f) as [obj Hobj].
  rewrite Hobj in E. rewrite Hobj.
  apply memoize_hit. rewrite <- (key_of_address _ _ Hid).
  by eapply memoize_return_cached.
Qed.

(** X3: nothing is ever evicted or overwritten: whatever is filed in any
    dictionary, under any key, before an access is still filed there
    afterwards. *)
Theorem caches_only_grow f self st r st' :
  constructed self -> access f self st = (r, st') ->
  forall g k v, cache_of st g !! k = Some v -> cache_of st' g !! k = Some v.
Proof.
  intros Hc E g k v Hv.
  destruct (footprint_access f self Hc _ _ _ E) as (_ & Hkeys & Hkeep).
  destruct (decide (k = key self)) as [->|Hne].
  - by apply Hkeep.
  - by rewrite Hkeys.
Qed.

(** X4: [api_version] on a body that parses returns [-1] when the root
    has no [apiversion] attribute, and otherwise what [int] makes of the
    attribute's text; when [int] raises, so does [api_version]. *)
Theorem api_version_value self st root :
  constructed self -> coherent st self ->
  ElementTree_fromstring (body self) = Return root ->
  exists st',
    api_version self st =
      (match attrib root !! "apiversion" with
       | Some s => map_result VInt (int_of_str s)
       | None => Return (VInt (-1))
       end, st')
    /\ coherent st' self.
Proof.
  intros Hc Hst Hroot. destruct (api_version self st) as [res st'] eqn:E.
  destruct (yields_api_version self _ _ _ Hst E) as [-> Hst'].
  exists st'. simpl. by rewrite Hroot.
Qed.

(** X5: when the parser rejects the body and the state is coherent for
    the wrapper (nothing stale is filed under its address), an access to
    the document tree or to an accessor built on it files nothing
    anywhere: every dictionary is afterwards what it was before. *)
Theorem rejected_body_files_nothing f self st e r st' :
  constructed self -> coherent st self ->
  ElementTree_fromstring (body self) = Raise e ->
  f ∈ [Etree; ApiVersion; Success; Message] ->
  access f self st = (r, st') ->
  forall g, cache_of st' g = cache_of st g.
Proof.
  intros Hc Hst He Hf E g.
  destruct (footprint_access f self Hc _ _ _ E) as (Hframe & Hkeys & _).
  destruct (access_yields f self Hc _ _ _ Hst E) as [_ Hst'].
  assert (Hraise : forall h, h ∈ [Etree; ApiVersion; Success; Message] ->
                     computed h self = Raise e).
  { intros h Hh. rewrite !elem_of_cons, elem_of_nil in Hh.
    destruct Hh as [->|[->|[->|[->|[]]]]]; simpl; by rewrite He. }
  assert (Hnone : forall s, coherent s self ->
            forall h, h ∈ [Etree; ApiVersion; Success; Message] ->
              cache_of s h !! key self = None).
  { intros s Hs h Hh. destruct (cache_of s h !! key self) as [v|] eqn:Hv;
      [|done]. apply Hs in Hv. rewrite (Hraise h Hh) in Hv. discriminate. }
  destruct (decide (g ∈ [Etree; ApiVersion; Success; Message])) as [Hg|Hg].
  - apply map_eq. intros k. destruct (decide (k = key self)) as [->|Hne].
    + by rewrite (Hnone st' Hst' g Hg), (Hnone st Hst g Hg).
    + by apply Hkeys.
  - apply Hframe. intros Hin. apply Hg.
    rewrite !elem_of_cons, elem_of_nil in Hf.
    destruct Hf as [->|[->|[->|[->|[]]]]]; simpl in Hin;
      rewrite ?elem_of_cons, ?elem_of_nil in Hin;
      rewrite !elem_of_cons;
      intuition (subst; auto).
Qed.

(** X6: a wrapper on which a projection [m] has been installed after
    construction, in a state where nothing is filed for [as_dict] under
    the wrapper's key: when [m] answers [v] without touching the caches,
    the first [as_dict] enters its body once, returns [v] and files it,
    and a second [as_dict] returns [v] again without entering the body. *)
Theorem as_dict_with_installed_method self (m : Callable) v st :
  _as_dict_method self = Some m ->
  (forall s, call m self s = (Return v, s)) ->
  cache_of st AsDict !! key self = None ->
  exists st',
    as_dict self st = (Return v, st')
    /\ calls_of st' AsDict = S (calls_of st AsDict)
    /\ as_dict self st' = (Return v, st').
Proof.
  intros Hm Hcall Hmiss. unfold as_dict.
  rewrite (memoize_miss _ _ _ _ Hmiss), Hm, Hcall.
  eexists. split; [reflexivity|]. split.
  - reflexivity.
  - apply memoize_hit. simpl. by rewrite lookup_insert_eq.
Qed.

Lemma etree_rejected self st e :
  cache_of st Etree !! key self = None ->
  ElementTree_fromstring (body self) = Raise e ->
  etree self st = (Raise e, snd (count_call Etree st)).
Proof.
  intros Hk He. unfold etree. rewrite (memoize_miss _ _ _ _ Hk).
  unfold bind, lift. by rewrite He.
Qed.

Lemma success_rejected self st e :
  cache_of st Success !! key self = None ->
  cache_of st Etree !! key self = None ->
  ElementTree_fromstring (body self) = Raise e ->
  success self st =
    (Raise e, snd (count_call Etree (snd (count_call Success st)))).
Proof.
  intros Hs Hk He. unfold success. rewrite (memoize_miss _ _ _ _ Hs).
  unfold bind at 1. by rewrite (etree_rejected _ _ e) by done.
Qed.

(** X16: when the parser rejects the body, every access to the document
    tree or to an accessor built on it raises the parser's exception and
    enters the parser exactly once more: a failure is never remembered,
    the body is parsed again each time. *)
Theorem rejected_body_parsed_again f self st e r st' :
  constructed self -> coherent st self ->
  ElementTree_fromstring (body self) = Raise e ->
  f ∈ [Etree; ApiVersion; Success; Message] ->
  access f self st = (r, st') ->
  r = Raise e /\ calls_of st' Etree = S (calls_of st Etree).
Proof.
  intros Hc Hst He Hf E.
  assert (Hnone : forall h, h ∈ [Etree; ApiVersion; Success; Message] ->
                    cache_of st h !! key self = None).
  { intros h Hh. destruct (cache_of st h !! key self) as [v|] eqn:Hv; [|done].
    apply Hst in Hv. rewrite !elem_of_cons, elem_of_nil in Hh.
    destruct Hh as [->|[->|[->|[->|[]]]]]; simpl in Hv;
      rewrite He in Hv; discriminate. }
  assert (HE : cache_of st Etree !! key self = None)
    by (apply Hnone; rewrite !elem_of_cons; auto).
  assert (HS : cache_of st Success !! key self = None)
    by (apply Hnone; rewrite !elem_of_cons; auto).
  pose proof (Hnone f Hf) as Hmiss.
  rewrite !elem_of_cons, elem_of_nil in Hf.
  destruct Hf as [->|[->|[->|[->|[]]]]]; simpl in E.
  - rewrite (etree_rejected _ _ e) in E by done. by injection E as <- <-.
  - unfold api_version in E. rewrite (memoize_miss _ _ _ _ Hmiss) in E.
    unfold bind at 1 in E. rewrite (etree_rejected _ _ e) in E by done.
    by injection E as <- <-.
  - rewrite (success_rejected _ _ e) in E by done. by injection E as <- <-.
  - unfold message in E. rewrite (memoize_miss _ _ _ _ Hmiss) in E.
    unfold bind at 1 in E. rewrite (success_rejected _ _ e) in E by done.
    by injection E as <- <-.
Qed.

End WrapperFurther.

(** ** Each derived value is computed at most once *)

Section ComputedOnce.
Context {Callable : Type} `{!Runtime Callable}.
Implicit Types (self : t Callable) (st : State) (f g h : accessor).

Lemma holds_ret {A} J self (a : A) : holds J self (ret a) (Return a).
Proof. intros st res st' Hst HJ [= <- <-]. done. Qed.

Lemma holds_lift {A} J self (r : result A) : holds J self (lift r) r.
Proof. intros st res st' Hst HJ [= <- <-]. done. Qed.

Lemma holds_bind {A B} J self (m : M A) (k : A -> M B) r1 r2 :
  holds J self m r1 ->
  (forall a, r1 = Return a -> holds J self (k a) r2) ->
  (forall e, r1 = Raise e -> r2 = Raise e) ->
  holds J self (bind m k) r2.
Proof.
  intros Hm Hk He st res st' Hst HJ. unfold bind.
  destruct (m st) as [x st1] eqn:E1.
  destruct (Hm _ _ _ Hst HJ E1) as (-> & Hst1 & HJ1).
  destruct r1 as [a|e].
  - intros E2. by eapply Hk.
  - intros [= <- <-]. split; [symmetry; by apply He | done].
Qed.

Lemma yields_holds {A} self (m : M A) r :
  yields self m r -> holds (fun _ => True) self m r.
Proof.
  intros Hy st res st' Hst _ E. destruct (Hy _ _ _ Hst E). done.
Qed.

Ltac footprint_walk :=
  repeat lazymatch goal with
         | |- footprint _ _ (ret _) => apply footprint_ret
         | |- footprint _ _ (lift _) => apply footprint_lift
         | |- footprint _ _ (bind _ _) => apply footprint_bind; [|intros ?]
         end.

(** The body of each accessor, given what the accessors it reads do. *)
Lemma access_body J g self :
  constructed self ->
  (forall h, h ∈ reads g -> holds J self (access h self) (computed h self)) ->
  exists obj,
    access g self = memoize g obj self
    /\ holds J self (obj self) (computed g self)
    /\ footprint (reads g) self (obj self).
Proof.
  intros Hc Hreads.
  assert (Hin1 : forall h l, h ∈ h :: l) by (intros; left).
  assert (Hin2 : forall h h' l, h ∈ h' :: h :: l) by (intros; right; left).
  destruct g; simpl; eexists; (split; [reflexivity|]); simpl; split.
  - eapply holds_bind; [apply holds_lift | |].
    + intros root ->. apply holds_ret.
    + by intros e ->.
  - footprint_walk.
  - eapply holds_bind; [apply holds_lift | |].
    + intros s ->. apply holds_ret.
    + by intros e ->.
  - footprint_walk.
  - rewrite (constructed_no_method _ Hc). apply holds_ret.
  - rewrite (constructed_no_method _ Hc). apply footprint_ret.
  - eapply holds_bind; [exact (Hreads Etree (Hin1 _ _)) | |]; simpl.
    + intros v Hv. destruct (ElementTree_fromstring _) as [root|]; [|done].
      injection Hv as <-. simpl.
      eapply holds_bind; [apply holds_lift | |]; [|done].
      intros attrs [= <-]. destruct (attrib root !! "apiversion") as [s|].
      * eapply holds_bind; [apply holds_lift | |].
        -- intros z ->. apply holds_ret.
        -- by intros e ->.
      * apply holds_ret.
    + intros e He. by destruct (ElementTree_fromstring _); simplify_eq.
  - footprint_walk; [apply footprint_etree|].
    destruct (_ !! _); footprint_walk.
  - eapply holds_bind; [exact (Hreads Etree (Hin1 _ _)) | |]; simpl.
    + intros v Hv. destruct (ElementTree_fromstring _) as [root|]; [|done].
      injection Hv as <-. simpl.
      eapply holds_bind; [apply holds_lift | |]; [|done].
      intros attrs [= <-]. apply holds_ret.
    + intros e He. by destruct (ElementTree_fromstring _); simplify_eq.
  - footprint_walk. apply footprint_etree.
  - eapply holds_bind; [exact (Hreads Success (Hin1 _ _)) | |]; simpl.
    + intros ok Hok.
      destruct (ElementTree_fromstring (body self)) as [root|] eqn:Hroot;
        [|done].
      injection Hok as <-. simpl.
      set (which := if has_success root then "success" else "error").
      eapply (holds_bind _ _ _ _ (py_find (VElement root) which)).
      * unfold which. destruct (has_success root);
          (eapply holds_bind; [exact (Hreads Etree (Hin2 _ _ _)) | |]; simpl;
           rewrite Hroot; simpl;
           [intros ? [= <-]; apply holds_lift | done]).
      * simpl. intros el [= <-]. destruct (find which root) as [c|]; simpl.
        -- eapply holds_bind; [apply holds_lift | |]; simpl; [|done].
           intros msg [= <-]. destruct (find "message" c) as [m|]; simpl;
             apply holds_lift.
        -- eapply holds_bind; [apply holds_lift | |]; simpl; done.
      * done.
    + intros e He. by destruct (ElementTree_fromstring _); simplify_eq.
  - footprint_walk; [apply footprint_success|].
    destruct (truthy _); footprint_walk;
      (eapply footprint_weaken; [|apply footprint_etree]);
      intros g ->%list_elem_of_singleton; right; left.
Qed.

Lemma holds_memoize_other f g obj self :
  g <> f ->
  holds (entered_once f self) self (obj self) (computed g self) ->
  holds (entered_once f self) self (memoize g obj self) (computed g self).
Proof.
  intros Hne Hobj st res st' Hst HJ E.
  destruct (cache_of st g !! key self) as [v|] eqn:Hk.
  - rewrite (memoize_hit _ _ _ _ _ Hk) in E. injection E as <- <-.
    split; [symmetry; by apply Hst | done].
  - rewrite (memoize_miss _ _ _ _ Hk) in E.
    destruct (obj self _) as [r1 st1] eqn:E1.
    assert (Hst0 : coherent (snd (count_call g st)) self) by exact Hst.
    assert (HJ0 : entered_once f self (snd (count_call g st))).
    { unfold entered_once in *. simpl. by rewrite decide_False. }
    destruct (Hobj _ _ _ Hst0 HJ0 E1) as (Hr & Hst1 & HJ1).
    destruct r1 as [v|e]; injection E as <- <-; [|done].
    split; [done|]. split.
    + intros g' v'. simpl. case_decide.
      * subst g'. rewrite lookup_insert_eq. intros [= <-]. by symmetry.
      * apply Hst1.
    + unfold entered_once in *. simpl. by rewrite decide_False.
Qed.

Lemma holds_memoize_same f obj self fs v :
  computed f self = Return v ->
  holds (fun _ => True) self (obj self) (computed f self) ->
  footprint fs self (obj self) -> f ∉ fs ->
  holds (entered_once f self) self (memoize f obj self) (computed f self).
Proof.
  intros Hv Hobj Hfoot Hnin st res st' Hst HJ E.
  destruct (cache_of st f !! key self) as [v0|] eqn:Hk.
  - rewrite (memoize_hit _ _ _ _ _ Hk) in E. injection E as <- <-.
    split; [symmetry; by apply Hst | done].
  - rewrite (memoize_miss _ _ _ _ Hk) in E.
    destruct (obj self _) as [r1 st1] eqn:E1.
    assert (Hst0 : coherent (snd (count_call f st)) self) by exact Hst.
    destruct (Hobj _ _ _ Hst0 I E1) as (Hr & Hst1 & _).
    destruct (Hfoot _ _ _ E1) as (F1 & _ & _).
    destruct (F1 f Hnin) as [_ Fn]. simpl in Fn.
    rewrite decide_True in Fn by done.
    unfold entered_once in HJ. rewrite Hk in HJ.
    rewrite Hv in Hr. subst r1. injection E as <- <-.
    split; [by rewrite Hv|]. split.
    + intros g' v'. simpl. case_decide.
      * subst g'. rewrite lookup_insert_eq. by intros [= <-].
      * apply Hst1.
    + unfold entered_once. simpl. rewrite decide_True by done.
      rewrite lookup_insert_eq. by rewrite Fn, HJ.
Qed.

Lemma entered_once_step f v g self :
  constructed self -> computed f self = Return v ->
  (forall h, h ∈ reads g ->
     holds (entered_once f self) self (access h self) (computed h self)) ->
  holds (entered_once f self) self (access g self) (computed g self).
Proof.
  intros Hc Hv Hreads. destruct (decide (g = f)) as [->|Hne].
  - destruct (access_body (fun _ => True) f self Hc) as (obj & -> & Hb & Hf).
    { intros h _. apply yields_holds. by apply access_yields. }
    eapply holds_memoize_same; eauto using reads_not_self.
  - destruct (access_body (entered_once f self) g self Hc Hreads)
      as (obj & -> & Hb & _).
    by apply holds_memoize_other.
Qed.

Lemma entered_once_access f v g self :
  constructed self -> computed f self = Return v ->
  holds (entered_once f self) self (access g self) (computed g self).
Proof.
  intros Hc Hv.
  assert (HE : holds (entered_once f self) self (access Etree self)
                 (computed Etree self)).
  { eapply entered_once_step; eauto. intros h Hh. by apply elem_of_nil in Hh. }
  assert (HS : holds (entered_once f self) self (access Success self)
                 (computed Success self)).
  { eapply entered_once_step; eauto.
    intros h ->%list_elem_of_singleton. exact HE. }
  eapply entered_once_step; eauto. intros h Hh.
  destruct g; simpl in Hh; rewrite ?elem_of_cons, ?elem_of_nil in Hh;
    intuition (subst; auto).
Qed.

(** X7: over any sequence of accesses to one wrapper, in any order and
    to any of the six accessors, starting from empty caches, the body of
    an accessor whose computation succeeds on the wrapper's response is
    entered at most once: exactly once if its value is cached, not at all
    otherwise. *)
Theorem computed_at_most_once self st f v :
  constructed self -> reachable [self] st ->
  computed f self = Return v ->
  calls_of st f = match cache_of st f !! key self with
                  | Some _ => 1%nat
                  | None => 0%nat
                  end
  /\ (calls_of st f <= 1)%nat.
Proof.
  intros Hc Hreach Hv.
  assert (Hinv : coherent st self /\ entered_once f self st).
  { induction Hreach as [|st w g Hreach [IHc IHe] Hw].
    - split; [apply coherent_initial | reflexivity].
    - apply list_elem_of_singleton in Hw. subst w.
      destruct (access g self st) as [r st'] eqn:E. simpl.
      destruct (entered_once_access f v g self Hc Hv _ _ _ IHc IHe E)
        as (_ & ? & ?).
      done. }
  destruct Hinv as [_ Hone]. unfold entered_once in Hone.
  split; [exact Hone|]. rewrite Hone. destruct (_ !! _); lia.
Qed.

End ComputedOnce.

(** ** Further properties of the connection *)

Section ConnectionFurther.
Import Requests.
Context {defaults : RundeckConnection.Defaults} {transport : Transport}.

Lemma append_assoc (a b c : string) : (a +:+ b) +:+ c = a +:+ (b +:+ c).
Proof.
  induction a as [|x a IH]; [done|].
  change (String x ((a +:+ b) +:+ c) = String x (a +:+ (b +:+ c))).
  by rewrite IH.
Qed.

Lemma init_api_version host protocol port tok kw self :
  RundeckConnection.__init__ host protocol port tok kw = Return self ->
  RundeckConnection.api_version self =
    match RundeckConnection.kw_api_version kw with
    | Some v => v
    | None => RundeckConnection.RUNDECK_API_VERSION
    end.
Proof.
  unfold RundeckConnection.__init__. cbv zeta. intros E.
  destruct tok as [token|]; simpl in E.
  - by injection E as <-.
  - destruct (RundeckConnection.kw_usr kw), (RundeckConnection.kw_pwd kw);
      simpl in E; try discriminate; by injection E as <-.
Qed.

(** X8: with a token, construction succeeds whatever the user name, the
    password, the protocol and the port are; the token is kept, and the
    session carries it in the header [X-Rundeck-Auth-Token] next to the
    headers a new session has. In particular a user name and password
    given along with a token raise nothing. *)
Theorem init_with_token host protocol port token kw :
  exists self,
    RundeckConnection.__init__ host protocol port (Some token) kw = Return self
    /\ RundeckConnection.api_token self = Some token
    /\ headers (RundeckConnection.http self) !! "X-Rundeck-Auth-Token"
       = Some token
    /\ forall name, name <> "X-Rundeck-Auth-Token" ->
         headers (RundeckConnection.http self) !! name
         = headers new_session !! name.
Proof.
  eexists. split; [reflexivity|]. simpl.
  split; [done|]. split; [apply lookup_insert_eq|].
  intros name Hne. by rewrite lookup_insert_ne.
Qed.

(** X9: construction fails exactly when no token is given and the user
    name and the password are either both absent or both present: with
    neither it raises [InvalidAuthentication], with both
    [NotImplementedError]. *)
Theorem init_failures host protocol port tok kw :
  ((exists e, RundeckConnection.__init__ host protocol port tok kw = Raise e)
   <-> tok = None
       /\ RundeckConnection.is_None (RundeckConnection.kw_usr kw)
          = RundeckConnection.is_None (RundeckConnection.kw_pwd kw))
  /\ (RundeckConnection.kw_usr kw = None ->
      RundeckConnection.kw_pwd kw = None ->
      RundeckConnection.__init__ host protocol port None kw
      = Raise (InvalidAuthentication
                 "Must supply either api_token or usr and pwd"))
  /\ (forall name secret,
        RundeckConnection.kw_usr kw = Some name ->
        RundeckConnection.kw_pwd kw = Some secret ->
        RundeckConnection.__init__ host protocol port None kw
        = Raise (NotImplementedError
                   "Username/password authentication is not yet supported")).
Proof.
  unfold RundeckConnection.__init__. cbv zeta.
  split; [|split].
  - destruct tok as [token|],
      (RundeckConnection.kw_usr kw) as [name|],
      (RundeckConnection.kw_pwd kw) as [secret|]; simpl;
      (split; [intros [e He]; try discriminate; done
              | intros [Ht Hb]; try discriminate; eauto]).
  - by intros -> ->.
  - by intros name secret -> ->.
Qed.

(** X10: a protocol spelled otherwise than [http] or [https] (another
    scheme, or upper case) never gets the port: the server is the bare
    host whatever the port is. *)
Theorem other_protocol_bare_host host protocol port tok kw self :
  protocol <> "http" -> protocol <> "https" ->
  RundeckConnection.__init__ host protocol port tok kw = Return self ->
  RundeckConnection.server self = host
  /\ RundeckConnection.base_url self = protocol +:+ "://" +:+ host +:+ "/api".
Proof.
  intros Hhttp Hhttps Hinit.
  destruct (init_fields _ _ _ _ _ _ Hinit) as (Hserver & Hbase & _).
  apply String.eqb_neq in Hhttp, Hhttps.
  rewrite Hhttp, Hhttps in Hserver. simpl in Hserver.
  by rewrite Hbase, Hserver.
Qed.

(** X11: the URL of a request in terms of what the constructor was given,
    for the protocols [http] and [https]: protocol, host, the port unless
    it is the one the protocol implies, [/api/], the version given in the
    keywords or else the default one, and the path without its leading
    slashes. *)
Theorem url_of_constructor_arguments host protocol port tok kw self path :
  protocol = "http" \/ protocol = "https" ->
  RundeckConnection.__init__ host protocol port tok kw = Return self ->
  RundeckConnection.make_url self path =
    protocol +:+ "://" +:+ host
      +:+ (if port =? default_port protocol then EmptyString
           else ":" +:+ Py.str_int port)
      +:+ "/api/"
      +:+ Py.str_int (match RundeckConnection.kw_api_version kw with
                      | Some v => v
                      | None => RundeckConnection.RUNDECK_API_VERSION
                      end)
      +:+ "/" +:+ Py.lstrip "/" path.
Proof.
  intros Hproto Hinit.
  destruct (init_fields _ _ _ _ _ _ Hinit) as (Hserver & Hbase & _).
  unfold RundeckConnection.make_url, Py.join.
  rewrite (init_api_version _ _ _ _ _ _ Hinit), Hbase, Hserver.
  unfold default_port.
  destruct Hproto as [-> | ->]; simpl;
    match goal with |- context [Z.eqb port ?d] => destruct (Z.eqb port d) end;
    simpl; rewrite ?append_assoc; reflexivity.
Qed.

(** X12: [make_url] tells two paths apart exactly when they differ in
    more than their leading slashes. *)
Theorem make_url_eq_iff (self : RundeckConnection.t) (p q : string) :
  RundeckConnection.make_url self p = RundeckConnection.make_url self q
  <-> Py.lstrip "/" p = Py.lstrip "/" q.
Proof.
  unfold RundeckConnection.make_url, Py.join. split.
  - intros E. by repeat apply String.app_inj in E.
  - by intros ->.
Qed.

(** X13: only the statuses from 400 to 599 count as failure. Any other
    status, a redirect or an informational one included, gives a wrapper
    of the response, with the address the interpreter chose and without
    any projection. *)
Theorem execute_cmd_other_status {Callable : Type}
    (self : RundeckConnection.t) wrapper_id method url params data
    parse_response kwargs rsp st :
  request {| req_method := method;
             req_url := RundeckConnection.make_url self url;
             req_params := params;
             req_data := data;
             req_cookies := None;
             req_headers :=
               [("X-Rundeck-Auth-Token", RundeckConnection.api_token self)];
             req_kwargs := kwargs |} = Return rsp ->
  status_code rsp < 400 \/ 600 <= status_code rsp ->
  exists w : t Callable,
    RundeckConnection.execute_cmd self wrapper_id
      method url params data parse_response kwargs st = (Return w, st)
    /\ response w = rsp
    /\ obj_id w = wrapper_id
    /\ _as_dict_method w = None.
Proof.
  intros Hreq Hstatus. unfold RundeckConnection.execute_cmd, bind, lift.
  rewrite Hreq. unfold raise_for_status.
  assert (Hno : (400 <=? status_code rsp) && (status_code rsp <? 600) = false).
  { apply andb_false_iff. destruct Hstatus.
    - left. apply Z.leb_gt. lia.
    - right. apply Z.ltb_ge. lia. }
  rewrite Hno. simpl. eexists. repeat split; reflexivity.
Qed.

(** X14: a path that is empty or made of slashes only leads to the root
    of the versioned API, with a trailing slash. *)
Theorem make_url_of_slashes (self : RundeckConnection.t) (n : nat) :
  RundeckConnection.make_url self (slashes n) =
    RundeckConnection.base_url self +:+ "/"
      +:+ Py.str_int (RundeckConnection.api_version self) +:+ "/".
Proof.
  unfold RundeckConnection.make_url, Py.join.
  assert (Hstrip : Py.lstrip "/" (slashes n) = EmptyString).
  { induction n as [|n IH]; [done|]. exact IH. }
  by rewrite Hstrip.
Qed.

End ConnectionFurther.

Section EndToEnd.
Import Requests.
Context {transport : Transport}.
Context {Callable : Type} `{!Runtime Callable}.

(** X15: from the request to the message. When the transport answers
    with a status outside 400 to 599 and a body that parses to [root],
    [execute_cmd] returns a wrapper on which, in a state that is coherent
    for it, [success] tells whether [root] has a [success] attribute and
    [message] returns the text of the matching [message] element. *)
Theorem execute_cmd_then_read (self : RundeckConnection.t) wrapper_id
    method url params data parse_response kwargs rsp root st :
  request {| req_method := method;
             req_url := RundeckConnection.make_url self url;
             req_params := params;
             req_data := data;
             req_cookies := None;
             req_headers :=
               [("X-Rundeck-Auth-Token", RundeckConnection.api_token self)];
             req_kwargs := kwargs |} = Return rsp ->
  status_code rsp < 400 \/ 600 <= status_code rsp ->
  ElementTree_fromstring (resp_text rsp) = Return root ->
  exists w : t Callable,
    RundeckConnection.execute_cmd self wrapper_id
      method url params data parse_response kwargs st = (Return w, st)
    /\ (coherent st w ->
        (exists st1,
           success w st = (Return (VBool (has_success root)), st1))
        /\ forall el msg,
             find (if has_success root then "success" else "error") root
               = Some el ->
             find "message" el = Some msg ->
             exists st2, message w st = (Return (text_value msg), st2)).
Proof.
  intros Hreq Hstatus Hroot.
  unfold RundeckConnection.execute_cmd, bind, lift.
  rewrite Hreq. unfold raise_for_status.
  assert (Hno : (400 <=? status_code rsp) && (status_code rsp <? 600) = false).
  { apply andb_false_iff. destruct Hstatus.
    - left. apply Z.leb_gt. lia.
    - right. apply Z.ltb_ge. lia. }
  rewrite Hno. simpl. eexists. split; [reflexivity|].
  set (w := {| obj_id := wrapper_id; _response := rsp;
               _as_dict_method := None |}).
  intros Hst. split.
  - destruct (success w st) as [res st1] eqn:E.
    destruct (yields_success w _ _ _ Hst E) as [-> _].
    exists st1. simpl. unfold body. simpl. by rewrite Hroot.
  - intros el msg Hel Hmsg.
    destruct (message w st) as [res st2] eqn:E.
    destruct (yields_message w _ _ _ Hst E) as [-> _].
    exists st2. simpl. unfold body. simpl. by rewrite Hroot, Hel, Hmsg.
Qed.

End EndToEnd.

(** ** The further properties at concrete inputs *)

Section FurtherInstances.
Import Reference Examples.

(** X2 at a concrete input: a success document, then an error document
    at the same address. *)
Lemma same_address_shares_cache_witness :
  let first := wrapper 1 200 ok_body in
  let second := wrapper 1 200 error_body in
  let st' := snd (access Success first initial_state) in
  obj_id first = obj_id second
  /\ access Success first initial_state = (Return (VBool true), st')
  /\ access Success second st' = (Return (VBool true), st').
Proof.
  intros first second st'.
  assert (H1 : obj_id first = obj_id second) by reflexivity.
  assert (H2 : access Success first initial_state = (Return (VBool true), st'))
    by (vm_compute; reflexivity).
  split; [exact H1|]. split; [exact H2|].
  exact (same_address_shares_cache Success first second initial_state
           (VBool true) st' H1 H2).
Defined.

(** X3 at a concrete input: [message] after [success]. *)
Lemma caches_only_grow_witness :
  let self := wrapper 1 200 ok_body in
  let st := snd (access Success self initial_state) in
  let '(r, st') := access Message self st in
  constructed self
  /\ cache_of st Success !! key self = Some (VBool true)
  /\ cache_of st' Success !! key self = Some (VBool true).
Proof.
  intros self st. destruct (access Message self st) as [r st'] eqn:E.
  assert (H1 : constructed self) by apply wrapper_constructed.
  assert (H2 : cache_of st Success !! key self = Some (VBool true))
    by (vm_compute; reflexivity).
  split; [exact H1|]. split; [exact H2|].
  exact (caches_only_grow Message self st r st' H1 E Success (key self)
           (VBool true) H2).
Defined.

(** X4 at a concrete input: [apiversion='11']. *)
Lemma api_version_value_witness :
  let self := wrapper 1 200 ok_body in
  constructed self
  /\ coherent initial_state self
  /\ ElementTree_fromstring (body self) = Return success_root
  /\ exists st',
       api_version self initial_state =
         (match attrib success_root !! "apiversion" with
          | Some s => map_result VInt (int_of_str s)
          | None => Return (VInt (-1))
          end, st')
       /\ coherent st' self.
Proof.
  intros self.
  assert (H1 : constructed self) by apply wrapper_constructed.
  assert (H2 : coherent initial_state self) by apply coherent_initial.
  assert (H3 : ElementTree_fromstring (body self) = Return success_root)
    by (vm_compute; reflexivity).
  repeat (split; [assumption|]).
  exact (api_version_value self initial_state success_root H1 H2 H3).
Defined.

Example run_api_version :
  fst (api_version (wrapper 1 200 ok_body) initial_state) = Return (VInt 11)
  /\ fst (api_version (wrapper 1 200 error_body) initial_state)
     = Return (VInt (-1)).
Proof. vm_compute. auto. Qed.

(** X5 at a concrete input: [message] on a body that is not XML. *)
Lemma rejected_body_files_nothing_witness :
  let self := wrapper 1 200 "not xml" in
  let '(r, st') := access Message self initial_state in
  constructed self
  /\ coherent initial_state self
  /\ ElementTree_fromstring (body self) = Raise ParseError
  /\ Message ∈ [Etree; ApiVersion; Success; Message]
  /\ forall g, cache_of st' g = cache_of initial_state g.
Proof.
  intros self. destruct (access Message self initial_state) as [r st'] eqn:E.
  assert (H1 : constructed self) by apply wrapper_constructed.
  assert (H2 : coherent initial_state self) by apply coherent_initial.
  assert (H3 : ElementTree_fromstring (body self) = Raise ParseError)
    by (vm_compute; reflexivity).
  assert (H4 : Message ∈ [Etree; ApiVersion; Success; Message]).
  { rewrite !elem_of_cons. auto. }
  repeat (split; [assumption|]).
  exact (rejected_body_files_nothing Message self initial_state ParseError
           r st' H1 H2 H3 H4 E).
Defined.

(** X16 at a concrete input: [success] on a body that is not XML. *)
Lemma rejected_body_parsed_again_witness :
  let self := wrapper 1 200 "not xml" in
  let '(r, st') := access Success self initial_state in
  constructed self
  /\ coherent initial_state self
  /\ ElementTree_fromstring (body self) = Raise ParseError
  /\ Success ∈ [Etree; ApiVersion; Success; Message]
  /\ r = Raise ParseError
  /\ calls_of st' Etree = S (calls_of initial_state Etree).
Proof.
  intros self. destruct (access Success self initial_state) as [r st'] eqn:E.
  assert (H1 : constructed self) by apply wrapper_constructed.
  assert (H2 : coherent initial_state self) by apply coherent_initial.
  assert (H3 : ElementTree_fromstring (body self) = Raise ParseError)
    by (vm_compute; reflexivity).
  assert (H4 : Success ∈ [Etree; ApiVersion; Success; Message]).
  { rewrite !elem_of_cons. auto. }
  repeat (split; [assumption|]).
  exact (rejected_body_parsed_again Success self initial_state ParseError
           r st' H1 H2 H3 H4 E).
Defined.

(** X6 at a concrete input: [status_view] installed on a wrapper. *)
Lemma as_dict_with_installed_method_witness :
  let self := wrapper_with_view 1 200 ok_body in
  let v := VDict [("status", VInt 200)] in
  _as_dict_method self = Some status_view
  /\ (forall s, call status_view self s = (Return v, s))
  /\ cache_of initial_state AsDict !! key self = None
  /\ exists st',
       as_dict self initial_state = (Return v, st')
       /\ calls_of st' AsDict = S (calls_of initial_state AsDict)
       /\ as_dict self st' = (Return v, st').
Proof.
  intros self v.
  assert (H1 : _as_dict_method self = Some status_view) by reflexivity.
  assert (H2 : forall s, call status_view self s = (Return v, s))
    by (intros s; reflexivity).
  assert (H3 : cache_of initial_state AsDict !! key self = None)
    by reflexivity.
  repeat (split; [assumption|]).
  exact (as_dict_with_installed_method self status_view v initial_state
           H1 H2 H3).
Defined.

(** X7 at a concrete input: [success], then [message], then
    [api_version] on one wrapper; the body was parsed once. *)
Lemma computed_at_most_once_witness :
  let self := wrapper 1 200 ok_body in
  let st := snd (access ApiVersion self
                   (snd (access Message self
                           (snd (access Success self initial_state))))) in
  constructed self
  /\ reachable [self] st
  /\ computed Etree self = Return (VElement success_root)
  /\ calls_of st Etree = match cache_of st Etree !! key self with
                         | Some _ => 1%nat
                         | None => 0%nat
                         end
  /\ (calls_of st Etree <= 1)%nat.
Proof.
  intros self st.
  assert (H1 : constructed self) by apply wrapper_constructed.
  assert (Hin : self ∈ [self]) by left.
  assert (H2 : reachable [self] st).
  { unfold st. repeat (apply reach_access; [|exact Hin]). apply reach_initial. }
  assert (H3 : computed Etree self = Return (VElement success_root))
    by (vm_compute; reflexivity).
  repeat (split; [assumption|]).
  exact (computed_at_most_once self st Etree (VElement success_root) H1 H2 H3).
Defined.

(** X10 at a concrete input: the protocol in upper case. *)
Lemma other_protocol_bare_host_witness :
  exists self,
    "HTTP" <> "http" /\ "HTTP" <> "https"
    /\ RundeckConnection.__init__ "host" "HTTP" 4440 (Some "token") kwargs_v14
       = Return self
    /\ RundeckConnection.server self = "host"
    /\ RundeckConnection.base_url self = "HTTP://host/api".
Proof.
  eexists.
  assert (H1 : "HTTP" <> "http") by discriminate.
  assert (H2 : "HTTP" <> "https") by discriminate.
  split; [exact H1|]. split; [exact H2|]. split; [reflexivity|].
  exact (other_protocol_bare_host "host" "HTTP" 4440 (Some "token")
           kwargs_v14 _ H1 H2 eq_refl).
Defined.

(** X11 at a concrete input. *)
Lemma url_of_constructor_arguments_witness :
  exists self,
    RundeckConnection.__init__ "host" "https" 8443 (Some "token") kwargs_v14
      = Return self
    /\ RundeckConnection.make_url self "/job/7/run"
       = "https://host:8443/api/14/job/7/run".
Proof.
  eexists. split; [reflexivity|].
  exact (url_of_constructor_arguments "host" "https" 8443 (Some "token")
           kwargs_v14 _ "/job/7/run" (or_intror eq_refl) eq_refl).
Defined.

(** X13 at a concrete input: a transport that answers 304. *)
Lemma execute_cmd_other_status_witness :
  exists self,
    RundeckConnection.__init__ "host" "http" 4440 (Some "token") kwargs_v14
      = Return self
    /\ exists w : t Callable,
         RundeckConnection.execute_cmd (H0 := not_modified) self 7
           "GET" "/system/info" None None true [] initial_state
         = (Return w, initial_state)
         /\ response w = mkResponse 304 EmptyString
         /\ obj_id w = 7%N
         /\ _as_dict_method w = None.
Proof.
  eexists. split; [reflexivity|].
  refine (execute_cmd_other_status (transport := not_modified)
            (Callable := Callable) _ 7 "GET" "/system/info" None None true []
            (mkResponse 304 EmptyString) initial_state _ _).
  - reflexivity.
  - left. simpl. lia.
Defined.

(** X15 against the mock transport. *)
Lemma execute_cmd_then_read_witness :
  exists self,
    RundeckConnection.__init__ "host" "http" 4440 (Some "token") kwargs_v14
      = Return self
    /\ exists w : t Callable,
         RundeckConnection.execute_cmd self 7
           "GET" "/system/info" None None true [] initial_state
         = (Return w, initial_state)
         /\ (coherent initial_state w ->
             (exists st1,
                success w initial_state
                = (Return (VBool (has_success success_root)), st1))
             /\ forall el msg,
                  find (if has_success success_root
                        then "success" else "error") success_root = Some el ->
                  find "message" el = Some msg ->
                  exists st2,
                    message w initial_state = (Return (text_value msg), st2)).
Proof.
  eexists. split; [reflexivity|].
  refine (execute_cmd_then_read (Callable := Callable) _ 7 "GET"
            "/system/info" None None true [] (mkResponse 200 ok_body)
            success_root initial_state _ _ _).
  - vm_compute. reflexivity.
  - left. simpl. lia.
  - vm_compute. reflexivity.
Defined.

End FurtherInstances.

(** ** Entries left at a reused address *)

Section ReusedAddress.
Import Reference Examples.

(** C3, the behaviour of the code: a wrapper allocated at the address of
    a discarded one whose [message] was read finds that message filed
    under its own key. Its body parses and the root, flagged as success,
    has no [success] child, yet [message] returns the earlier text instead
    of raising; from empty caches the same wrapper raises. *)
Lemma reused_address_hides_missing_structure :
  let first := wrapper 1 200 ok_body in
  let second := wrapper 1 200 mismatched_body in
  let st1 := snd (message first initial_state) in
  obj_id first = obj_id second
  /\ ElementTree_fromstring (body second) = Return mismatched_root
  /\ has_success mismatched_root = true
  /\ find "success" mismatched_root = None
  /\ fst (message second st1) = Return (VStr "ok")
  /\ fst (message second initial_state) = Raise AttributeError.
Proof. vm_compute. repeat split; reflexivity. Qed.

(** C9, the behaviour of the code: a wrapper with a body that is not XML,
    allocated at the address of a discarded one whose [message] was read,
    never meets the parser: the document tree, [success], [message] and
    [api_version] answer from the entries of the earlier wrapper, and the
    body of [etree] is not entered; from empty caches the same wrapper
    raises at the first access. *)
Lemma reused_address_hides_rejected_body :
  let first := wrapper 1 200 ok_body in
  let second := wrapper 1 200 "not xml" in
  let st1 := snd (message first initial_state) in
  obj_id first = obj_id second
  /\ ElementTree_fromstring (body second) = Raise ParseError
  /\ fst (__init__ 1 (mkResponse 200 "not xml") None st1) = Return second
  /\ fst (etree second st1) = Return (VElement success_root)
  /\ fst (success second st1) = Return (VBool true)
  /\ fst (message second st1) = Return (VStr "ok")
  /\ fst (api_version second st1) = Return (VInt 11)
  /\ calls_of (snd (api_version second st1)) Etree = calls_of st1 Etree
  /\ fst (etree second initial_state) = Raise ParseError.
Proof. vm_compute. repeat split; reflexivity. Qed.

End ReusedAddress.
